(** * SageMaker example notebooks: a shallow embedding

    Three notebooks are modelled:
    - [02_feature_selection_tabular_data.ipynb] (module [FeatureSelection]),
    - the SageMaker Pipelines scheduling notebook (module [Scheduling]),
    - [hpo_xgboost_random_log.ipynb] (module [Tuning]).

    The vendor SDK and the data-science libraries are outside the
    repository; the parts of their behaviour that the notebook code relies on
    ([DataFrame.drop], [sorted], [np.split], binary64 multiplication, the
    vendor's job statuses) are modelled in the modules [Py], [Pandas],
    [Float64] and [Notebook]. *)

From Stdlib Require Import ZArith QArith Qround String List Bool Lia.
From Stdlib Require Import Permutation Sorted.
From Stdlib Require Import SpecFloat.
Import ListNotations.

Local Open Scope string_scope.
Local Open Scope list_scope.

(* ================================================================== *)
(** * Python values shared by the notebooks *)

Module Py.

(** Exceptions the modelled code can raise. *)
Inductive exn : Type :=
| KeyError
| NameError
| AssertionError
| OverflowError
| ValueError
| VendorError.

Inductive result (A : Type) : Type :=
| Ok (a : A)
| Raise (e : exn).
Arguments Ok {A} a.
Arguments Raise {A} e.

(** [sorted(l, key=key, reverse=reverse)]: a stable sort.  [place x y]
    tells that [x], which comes earlier in the input than [y], stays in
    front of [y]. *)
Section Sorted.
Context {A : Type}.
Variable key : A -> Q.
Variable reverse : bool.

Definition place (x y : A) : bool :=
  if reverse then Qle_bool (key y) (key x) else Qle_bool (key x) (key y).

Fixpoint insert (x : A) (l : list A) : list A :=
  match l with
  | [] => [x]
  | y :: l' => if place x y then x :: y :: l' else y :: insert x l'
  end.

Definition sorted (l : list A) : list A := fold_right insert [] l.

(** The order [sorted] establishes between an element of its result
    and any later one. *)
Definition in_order (x y : A) : Prop :=
  if reverse then (key y <= key x)%Q else (key x <= key y)%Q.
End Sorted.

End Py.

(* ================================================================== *)
(** * Notebooks as programs

    A notebook is a list of code cells, a cell a list of statements.  The
    statements are the operations the three notebooks perform: building
    objects locally, submitting a job through the vendor SDK, waiting for it,
    asking for its status, asserting on a status, reading a tuning job's
    analytics, plotting.  The managed service is outside the repository: it
    is a parameter ([vendor]) that answers each call. *)

Module Notebook.
Import Py.

(** Names of the kernel.  ["_"] is given to a result the code does not
    keep. *)
Definition var := string.

(** The managed service, as notebook code meets it: whether the n-th
    call made to it returns or raises, and the status string that the
    k-th status query that returns gives. *)
Record vendor : Type := Vendor {
  returns : nat -> bool;
  status : nat -> string
}.

Inductive value : Type :=
| VObj (name : string)        (* an object built by notebook code *)
| VJob (id : nat)             (* the handle of a submitted job *)
| VStatus (status : string)   (* a status string read from the service *)
| VResult (jobs : list nat).  (* a dataframe of results of these jobs *)

Inductive stmt : Type :=
| Construct (x : var) (obj : string) (uses : list var)
    (* x = Class(uses ...), or any local computation *)
| Display (uses : list var)
    (* an expression shown or printed *)
| Shell (cmd : string)
    (* a "!" line *)
| Service (x : var) (obj : string) (uses : list var)
    (* x = a call to the service that submits no job: upload, upsert,
       deploy, delete *)
| Submit (h : var) (recv : var) (uses : list var)
    (* h = recv.start(uses) *)
| Fit (recv : var) (uses : list var)
    (* recv.fit(uses): the job's handle is kept in recv.latest_tuning_job *)
| Wait (h : var)
    (* h.wait() *)
| Describe (x : var) (h : var)
    (* x = describe(h)[...Status] *)
| AssertCompleted (x : var)
    (* assert x == "Completed" *)
| Analytics (x : var) (h : var)
    (* x = HyperparameterTuningJobAnalytics(h.job_name).dataframe() *)
| Concat (x : var) (uses : list var)
    (* x = a dataframe computed from result dataframes *)
| Plot (x : var).
    (* a figure drawn from a result dataframe *)

Definition cell := list stmt.
Definition notebook := list cell.

(** What can be observed of a run.  [ok] tells whether the call
    returned. *)
Inductive event : Type :=
| EConstruct (obj : string) (uses : list string)
| EService (obj : string) (uses : list string) (ok : bool)
| EShell (cmd : string)
| ESubmit (recv : string) (job : nat) (uses : list string)
| ESubmitRejected (recv : string)
| EWait (job : nat) (ok : bool)
| EDescribe (job : nat) (status : option string)
| EAnalytics (job : nat) (ok : bool)
| EPlot (jobs : list nat)
| ERaise (e : exn).

Record state : Type := State {
  env : list (var * value);   (* the kernel's global names *)
  calls : nat;                (* calls made to the service so far *)
  reads : nat;                (* statuses received so far *)
  jobs : nat;                 (* jobs submitted so far *)
  log : list event            (* events, latest first *)
}.

Definition initial : state := State [] 0 0 0 [].

Fixpoint lookup (x : var) (e : list (var * value)) : option value :=
  match e with
  | [] => None
  | (y, v) :: e' => if String.eqb x y then Some v else lookup x e'
  end.

Definition bind (x : var) (v : value) (st : state) : state :=
  State ((x, v) :: env st) (calls st) (reads st) (jobs st) (log st).

Definition emit (e : event) (st : state) : state :=
  State (env st) (calls st) (reads st) (jobs st) (e :: log st).

Definition called (st : state) : state :=
  State (env st) (S (calls st)) (reads st) (jobs st) (log st).

Definition read (st : state) : state :=
  State (env st) (calls st) (S (reads st)) (jobs st) (log st).

Definition submitted (st : state) : state :=
  State (env st) (calls st) (reads st) (S (jobs st)) (log st).

(** The values of the names [uses], or [None] when one is unbound. *)
Fixpoint lookups (uses : list var) (e : list (var * value))
  : option (list value) :=
  match uses with
  | [] => Some []
  | x :: uses' =>
      match lookup x e, lookups uses' e with
      | Some v, Some vs => Some (v :: vs)
      | _, _ => None
      end
  end.

(** The objects among some values. *)
Fixpoint objects (vs : list value) : list string :=
  match vs with
  | [] => []
  | VObj o :: vs' => o :: objects vs'
  | _ :: vs' => objects vs'
  end.

(** The jobs behind some result dataframes; [None] when a value is not a
    result dataframe. *)
Fixpoint results (vs : list value) : option (list nat) :=
  match vs with
  | [] => Some []
  | VResult js :: vs' =>
      match results vs' with
      | Some js' => Some (js ++ js')
      | None => None
      end
  | _ :: vs' => None
  end.

Definition is_completed (status : string) : bool :=
  String.eqb status "Completed".

(** The name under which [tuner.fit] keeps the handle of its job. *)
Definition latest_tuning_job (tuner : var) : var :=
  String.append tuner ".latest_tuning_job".

Definition raise (e : exn) (st : state) : result unit * state :=
  (Raise e, emit (ERaise e) st).

(** One statement.  A name that is unbound, or bound to a value of the
    wrong kind, raises ([NameError] stands for both); a call the service
    does not return from raises [VendorError]. *)
Definition exec (v : vendor) (s : stmt) (st : state) : result unit * state :=
  match s with
  | Construct x obj uses =>
      match lookups uses (env st) with
      | Some vs =>
          (Ok tt, bind x (VObj obj) (emit (EConstruct obj (objects vs)) st))
      | None => raise NameError st
      end
  | Display uses =>
      match lookups uses (env st) with
      | Some _ => (Ok tt, st)
      | None => raise NameError st
      end
  | Shell cmd => (Ok tt, emit (EShell cmd) st)
  | Service x obj uses =>
      match lookups uses (env st) with
      | Some vs =>
          if returns v (calls st)
          then (Ok tt,
                bind x (VObj obj)
                  (emit (EService obj (objects vs) true) (called st)))
          else raise VendorError
                 (emit (EService obj (objects vs) false) (called st))
      | None => raise NameError st
      end
  | Submit h recv uses =>
      match lookup recv (env st), lookups uses (env st) with
      | Some (VObj r), Some vs =>
          if returns v (calls st)
          then (Ok tt,
                bind h (VJob (jobs st))
                  (emit (ESubmit r (jobs st) (objects vs))
                     (submitted (called st))))
          else raise VendorError (emit (ESubmitRejected r) (called st))
      | _, _ => raise NameError st
      end
  | Fit recv uses =>
      (* the job is submitted and its handle recorded; the rest of the
         call (the SDK may wait for the job) can still raise *)
      match lookup recv (env st), lookups uses (env st) with
      | Some (VObj r), Some vs =>
          if returns v (calls st)
          then
            let st' :=
              bind (latest_tuning_job recv) (VJob (jobs st))
                (emit (ESubmit r (jobs st) (objects vs))
                   (submitted (called st))) in
            if returns v (calls st')
            then (Ok tt, called st')
            else raise VendorError (called st')
          else raise VendorError (emit (ESubmitRejected r) (called st))
      | _, _ => raise NameError st
      end
  | Wait h =>
      match lookup h (env st) with
      | Some (VJob j) =>
          if returns v (calls st)
          then (Ok tt, emit (EWait j true) (called st))
          else raise VendorError (emit (EWait j false) (called st))
      | _ => raise NameError st
      end
  | Describe x h =>
      match lookup h (env st) with
      | Some (VJob j) =>
          if returns v (calls st)
          then
            let s := status v (reads st) in
            (Ok tt,
             bind x (VStatus s)
               (emit (EDescribe j (Some s)) (read (called st))))
          else raise VendorError (emit (EDescribe j None) (called st))
      | _ => raise NameError st
      end
  | AssertCompleted x =>
      match lookup x (env st) with
      | Some (VStatus s) =>
          if is_completed s then (Ok tt, st) else raise AssertionError st
      | _ => raise NameError st
      end
  | Analytics x h =>
      match lookup h (env st) with
      | Some (VJob j) =>
          if returns v (calls st)
          then (Ok tt,
                bind x (VResult [j]) (emit (EAnalytics j true) (called st)))
          else raise VendorError (emit (EAnalytics j false) (called st))
      | _ => raise NameError st
      end
  | Concat x uses =>
      match lookups uses (env st) with
      | Some vs =>
          match results vs with
          | Some js => (Ok tt, bind x (VResult js) st)
          | None => raise NameError st
          end
      | None => raise NameError st
      end
  | Plot x =>
      match lookup x (env st) with
      | Some (VResult js) => (Ok tt, emit (EPlot js) st)
      | _ => raise NameError st
      end
  end.

(** A cell runs its statements in order and stops at the first
    exception. *)
Fixpoint run_cell (v : vendor) (c : cell) (st : state) : state :=
  match c with
  | [] => st
  | s :: c' =>
      match exec v s st with
      | (Ok _, st') => run_cell v c' st'
      | (Raise _, st') => st'
      end
  end.

(** The cells are run top to bottom in one kernel; a cell that raised
    leaves the kernel as it was at the exception, and the next cell runs
    (execution counts 18 and 19 of the scheduling notebook). *)
Fixpoint run (v : vendor) (nb : notebook) (st : state) : state :=
  match nb with
  | [] => st
  | c :: nb' => run v nb' (run_cell v c st)
  end.

(** The events of a whole run, in order. *)
Definition trace (v : vendor) (nb : notebook) : list event :=
  rev (log (run v nb initial)).

(** ** Properties of a trace *)

Definition constructs (o : string) (e : event) : bool :=
  match e with
  | EConstruct o' _ => String.eqb o o'
  | EService o' _ true => String.eqb o o'
  | _ => false
  end.

Definition polls (j : nat) (e : event) : bool :=
  match e with
  | EWait j' _ | EDescribe j' _ => Nat.eqb j j'
  | _ => false
  end.

Definition observes_completed (j : nat) (e : event) : bool :=
  match e with
  | EDescribe j' (Some s) => Nat.eqb j j' && is_completed s
  | _ => false
  end.

Definition submits (r : string) (e : event) : bool :=
  match e with
  | ESubmit r' _ _ => String.eqb r r'
  | _ => false
  end.

(** Events that do something with job [j] other than asking the
    service about it. *)
Definition acts_on (j : nat) (e : event) : bool :=
  match e with
  | ESubmit _ j' _ => Nat.eqb j j'
  | EAnalytics j' _ => Nat.eqb j j'
  | EPlot js => existsb (Nat.eqb j) js
  | _ => false
  end.

(** Construct before submit: the receiver of a submission and every
    object passed to it, and every object passed to a constructor, was
    built earlier. *)
Definition constructed_before_use (tr : list event) : Prop :=
  forall pre e post, tr = pre ++ e :: post ->
    match e with
    | ESubmit r _ us =>
        forall o, In o (r :: us) ->
                  exists e', In e' pre /\ constructs o e' = true
    | EConstruct _ us =>
        forall o, In o us -> exists e', In e' pre /\ constructs o e' = true
    | _ => True
    end.

(** Submit before poll: a submitted job is waited for or asked about
    later on. *)
Definition submissions_polled (tr : list event) : Prop :=
  forall pre r j us post, tr = pre ++ ESubmit r j us :: post ->
    exists e, In e post /\ polls j e = true.

(** Poll before analyze: the analytics of a job are read, and figures of
    them drawn, only after the service reported the job "Completed". *)
Definition analysis_after_completed (tr : list event) : Prop :=
  forall pre e post, tr = pre ++ e :: post ->
    match e with
    | EAnalytics j _ => In (EDescribe j (Some "Completed")) pre
    | EPlot js =>
        forall j, In j js -> In (EDescribe j (Some "Completed")) pre
    | _ => True
    end.

(** No receiver (pipeline, tuner) is started twice. *)
Definition no_resubmission (tr : list event) : Prop :=
  forall pre r j us post, tr = pre ++ ESubmit r j us :: post ->
    forall j' us', ~ In (ESubmit r j' us') pre.

(** After a wait on a job raised, the job is only asked about. *)
Definition failure_only_observed (tr : list event) : Prop :=
  forall pre j post, tr = pre ++ EWait j false :: post ->
    forall e, In e post -> acts_on j e = false.

(** ** The same properties, computed *)

(** [scan ok seen tr]: every event of [tr] passes [ok] against the
    events before it ([seen], latest first) and those after it. *)
Fixpoint scan (ok : list event -> event -> list event -> bool)
    (seen tr : list event) : bool :=
  match tr with
  | [] => true
  | e :: tr' => ok seen e tr' && scan ok (e :: seen) tr'
  end.

Definition all_constructed (seen : list event) (os : list string) : bool :=
  forallb (fun o => existsb (constructs o) seen) os.

Definition ok_constructed (seen : list event) (e : event) : bool :=
  match e with
  | ESubmit r _ us => all_constructed seen (r :: us)
  | EConstruct _ us => all_constructed seen us
  | _ => true
  end.

Definition ok_polled (e : event) (post : list event) : bool :=
  match e with
  | ESubmit _ j _ => existsb (polls j) post
  | _ => true
  end.

Definition ok_analysis (seen : list event) (e : event) : bool :=
  match e with
  | EAnalytics j _ => existsb (observes_completed j) seen
  | EPlot js => forallb (fun j => existsb (observes_completed j) seen) js
  | _ => true
  end.

Definition ok_no_resubmission (seen : list event) (e : event) : bool :=
  match e with
  | ESubmit r _ _ => negb (existsb (submits r) seen)
  | _ => true
  end.

Definition ok_failure (e : event) (post : list event) : bool :=
  match e with
  | EWait j false => negb (existsb (acts_on j) post)
  | _ => true
  end.

(** All five at once. *)
Definition ok_all (seen : list event) (e : event) (post : list event) : bool :=
  ok_constructed seen e && ok_polled e post && ok_analysis seen e &&
  ok_no_resubmission seen e && ok_failure e post.

(** ** Exploring every behaviour of the service

    The code looks at a status only to compare it with "Completed", so
    runs are explored with the statuses "Completed" and "Other". *)

Definition normal (status : string) : string :=
  if is_completed status then "Completed" else "Other".

Definition map_value (f : string -> string) (v : value) : value :=
  match v with
  | VStatus s => VStatus (f s)
  | _ => v
  end.

Definition map_event (f : string -> string) (e : event) : event :=
  match e with
  | EDescribe j (Some s) => EDescribe j (Some (f s))
  | _ => e
  end.

Definition map_state (f : string -> string) (st : state) : state :=
  State (map (fun xv => (fst xv, map_value f (snd xv))) (env st))
        (calls st) (reads st) (jobs st) (map (map_event f) (log st)).

Definition map_vendor (f : string -> string) (v : vendor) : vendor :=
  Vendor (returns v) (fun k => f (status v k)).

(** A service that follows a script: the listed outcomes and statuses,
    then calls that raise and the status "Other". *)
Definition scripted (rs : list bool) (ss : list string) : vendor :=
  Vendor (fun n => nth n rs false) (fun k => nth k ss "Other").

(** [explore ok nb fuel rs ss]: [ok] holds of every run of [nb] against
    a service that starts as the script [rs], [ss] says.  A run that
    asked for no more than the script has is checked; otherwise the script
    is extended in each possible way. *)
Fixpoint explore (ok : list event -> event -> list event -> bool)
    (nb : notebook) (fuel : nat) (rs : list bool) (ss : list string)
  : bool :=
  let st := run (scripted rs ss) nb initial in
  if Nat.leb (calls st) (length rs) then
    if Nat.leb (reads st) (length ss) then scan ok [] (rev (log st))
    else
      match fuel with
      | O => false
      | S fuel' =>
          explore ok nb fuel' rs (ss ++ ["Completed"]) &&
          explore ok nb fuel' rs (ss ++ ["Other"])
      end
  else
    match fuel with
    | O => false
    | S fuel' =>
        explore ok nb fuel' (rs ++ [true]) ss &&
        explore ok nb fuel' (rs ++ [false]) ss
    end.

Definition map_env (f : string -> string) (e : list (var * value))
  : list (var * value) :=
  map (fun xv => (fst xv, map_value f (snd xv))) e.

(** Two services that answer the first [c] calls and the first [r]
    status queries alike. *)
Definition agree (v v' : vendor) (c r : nat) : Prop :=
  (forall n, (n < c)%nat -> returns v' n = returns v n) /\
  (forall k, (k < r)%nat -> status v' k = status v k).

Definition two_statuses (v : vendor) : Prop :=
  forall k, status v k = "Completed" \/ status v k = "Other".

(** The service under which every call returns and every job is
    "Completed". *)
Definition all_completed : vendor :=
  Vendor (fun _ => true) (fun _ => "Completed").

(** A statement calls the service at most once and reads at most one
    status. *)
Definition steps_bound (nb : notebook) : nat := 2 * length (concat nb).

End Notebook.

(* ================================================================== *)
(** * Python floats

    A Python [float] is an IEEE-754 binary64 number; the operations are
    those of the Standard Library's executable specification. *)

Module Float64.
Import Py.

Definition prec : Z := 53.
Definition emax : Z := 1024.

Definition float := spec_float.

(** [float(n)] for an [int]: the nearest float, ties to even;
    [OverflowError] when there is none. *)
Definition of_int (n : Z) : result float :=
  match binary_normalize prec emax n 0 false with
  | S754_infinity _ => Raise OverflowError
  | x => Ok x
  end.

(** [x * y] on floats. *)
Definition mul (x y : float) : float := SFmul prec emax x y.

(** The float a decimal literal [num/den] denotes: the one nearest to
    the quotient. *)
Definition literal (num den : Z) : float :=
  SFdiv prec emax (binary_normalize prec emax num 0 false)
                  (binary_normalize prec emax den 0 false).

(** [int(x)]: truncation towards zero. *)
Definition to_int (x : float) : result Z :=
  match x with
  | S754_zero _ => Ok 0%Z
  | S754_finite s m e => Ok (cond_Zopp s (Z.shiftl (Zpos m) e))
  | S754_infinity _ => Raise OverflowError
  | S754_nan => Raise ValueError
  end.

(** [int(c * n)] for a float [c] and an [int] [n]. *)
Definition int_of_scaled (c : float) (n : Z) : result Z :=
  match of_int n with
  | Ok x => to_int (mul c x)
  | Raise e => Raise e
  end.

End Float64.

(* ================================================================== *)
(** * The part of numpy the notebooks use *)

Module Numpy.

(** A bound of a Python slice over a sequence of length [n]: negative
    bounds count from the end, and all are clamped to [0 .. n]. *)
Definition bound (i : Z) (n : nat) : nat :=
  if (i <? 0)%Z then Z.to_nat (Z.max 0 (i + Z.of_nat n))
  else Nat.min (Z.to_nat i) n.

(** [l[lo:hi]] *)
Definition slice {A : Type} (l : list A) (lo hi : Z) : list A :=
  let a := bound lo (length l) in
  let b := bound hi (length l) in
  firstn (b - a) (skipn a l).

(** The slices between consecutive division points. *)
Fixpoint sections {A : Type} (ary : list A) (div_points : list Z)
  : list (list A) :=
  match div_points with
  | st :: (en :: _) as rest => slice ary st en :: sections ary rest
  | _ => []
  end.

(** [np.split(ary, indices)] with a list of indices: the division points
    are [0], the indices and [len(ary)]. *)
Definition split {A : Type} (ary : list A) (indices : list Z)
  : list (list A) :=
  sections ary (0%Z :: indices ++ [Z.of_nat (length ary)]).

End Numpy.

(* ================================================================== *)
(** * The part of pandas the notebooks use *)

Module Pandas.
Import Py.

Definition label := string.

(** A column: its label and its cells, top to bottom. *)
Record column : Type := Column { col_label : label; col_values : list Q }.

(** A frame is the list of its columns, left to right.  Labels may
    repeat, as pandas allows. *)
Definition DataFrame := list column.

Definition columns (df : DataFrame) : list label := map col_label df.

Definition mem (l : label) (ls : list label) : bool :=
  existsb (String.eqb l) ls.

(** [df.drop(labels, axis=1)]: a NEW frame without the columns named in
    [labels]; [KeyError] when a label names no column.  The receiver is
    left as it is ([inplace] defaults to [False]). *)
Definition drop (labels : list label) (df : DataFrame) : result DataFrame :=
  if forallb (fun l => mem l (columns df)) labels
  then Ok (filter (fun c => negb (mem (col_label c) labels)) df)
  else Raise KeyError.

(** The row-wise view of a frame: each row with its index label. *)
Definition row : Type := nat * list Q.

(** The rows of a frame whose index is the default [RangeIndex], as
    [read_csv] builds it; [get_dummies] and [drop(..., axis=1)] keep the
    index. *)
Definition range_indexed (cells : list (list Q)) : list row :=
  combine (seq 0 (length cells)) cells.

(** Objects live in a heap and are passed by reference. *)
Definition ref := nat.
Definition heap := list DataFrame.

Definition deref (h : heap) (r : ref) : option DataFrame := nth_error h r.
Definition alloc (h : heap) (df : DataFrame) : ref * heap :=
  (length h, h ++ [df]).

End Pandas.

(* ================================================================== *)
(** * 02_feature_selection_tabular_data.ipynb *)

Module FeatureSelection.
Import Py Pandas.

(** What [print(pd.DataFrame(ranked_lst, columns=[...]))] shows. *)
Record printed : Type := Printed {
  header : list string;
  rows : list (label * Q)
}.

(** [show_ranked_feature_importance_list(scores, data)] *)
Definition show_ranked_feature_importance_list
    (scores : list Q) (data : DataFrame) : printed :=
  let lst := combine (columns data) scores in
  let ranked_lst := sorted (fun t => snd t) true lst in
  Printed ["Feature"; "Importance Score"] ranked_lst.

Definition threshold : Q := 1 # 100.

(** The loop of [remove_features]: one pass over
    [zip(data.columns, lst)], appending the label of every pair whose
    score is [<= threshold]. *)
Definition features_to_remove
    (lst : list Q) (cols : list label) (threshold : Q) : list label :=
  fold_left
    (fun acc (pair : label * Q) =>
       if Qle_bool (snd pair) threshold then acc ++ [fst pair] else acc)
    (combine cols lst) [].

(** [remove_features(lst, data, threshold)], with [data] a reference into
    the heap.  The frame built by [data.drop] is allocated and its
    reference thrown away; the function returns [None]. *)
Definition remove_features
    (lst : list Q) (data : ref) (threshold : Q) (h : heap)
  : result unit * heap :=
  match deref h data with
  | None => (Raise NameError, h)
  | Some df =>
      let to_remove := features_to_remove lst (columns df) threshold in
      match to_remove with
      | [] => (Ok tt, h)
      | _ :: _ =>
          match drop to_remove df with
          | Ok df' => (Ok tt, snd (alloc h df'))
          | Raise e => (Raise e, h)
          end
      end
  end.

(** The cell with the three calls, on [X_train], [X_val] and [X_test]. *)
Definition prune_cell
    (feature_importances_xgboost : list Q) (X_train X_val X_test : ref)
    (h : heap) : result unit * heap :=
  match remove_features feature_importances_xgboost X_train threshold h with
  | (Ok _, h1) =>
      match remove_features feature_importances_xgboost X_val threshold h1 with
      | (Ok _, h2) =>
          remove_features feature_importances_xgboost X_test threshold h2
      | (Raise e, h2) => (Raise e, h2)
      end
  | (Raise e, h1) => (Raise e, h1)
  end.

(** The code cells, top to bottom.  The notebook submits no job. *)
Definition notebook : Notebook.notebook :=
  let C := Notebook.Construct in
  let D := Notebook.Display in
  [ [ Notebook.Shell "pip install -qU xgboost";
      C "session" "session" []; C "role" "role" []; D ["role"] ];
    [ C "X_train" "X_train" []; C "X_test" "X_test" []; C "X_val" "X_val" [] ];
    [ C "X_data" "X_data" ["X_train"]; C "y_label" "y_label" ["X_train"];
      C "xgboost_model" "xgboost_model" [];
      C "xgboost_model" "xgboost_model" ["xgboost_model"; "X_data"; "y_label"];
      C "feature_importances_xgboost" "feature_importances_xgboost"
        ["xgboost_model"];
      D ["feature_importances_xgboost"; "X_train"] ];
    [ C "create_bar_plot" "create_bar_plot" [] ];
    [ D ["create_bar_plot"; "feature_importances_xgboost"; "X_train"] ];
    [ C "show_ranked_feature_importance_list"
        "show_ranked_feature_importance_list" [] ];
    [ D ["show_ranked_feature_importance_list";
         "feature_importances_xgboost"; "X_train"] ];
    [ C "X_data" "X_data" ["X_train"]; C "y_label" "y_label" ["X_train"];
      C "k_nn_model" "k_nn_model" [];
      C "k_nn_model" "k_nn_model" ["k_nn_model"; "X_data"; "y_label"];
      C "feature_importances_permutations" "feature_importances_permutations"
        ["k_nn_model"; "X_data"; "y_label"];
      D ["feature_importances_permutations"; "X_train"] ];
    [ D ["create_bar_plot"; "feature_importances_permutations"; "X_train"] ];
    [ D ["show_ranked_feature_importance_list";
         "feature_importances_permutations"; "X_train"] ];
    [ C "threshold" "threshold" [] ];
    [ C "remove_features" "remove_features" [] ];
    [ D ["remove_features"; "feature_importances_xgboost"; "X_train"; "threshold"];
      D ["remove_features"; "feature_importances_xgboost"; "X_val"; "threshold"];
      D ["remove_features"; "feature_importances_xgboost"; "X_test"; "threshold"] ];
    [ D ["X_train"]; D ["X_test"]; D ["X_val"] ] ].

(** A small frame and its scores, to run the functions on. *)
Definition example_frame : DataFrame :=
  [Column "f0" [1; 2]%Q; Column "f1" [3; 4]%Q].
Definition example_scores : list Q := [1 # 200; 1 # 2].
Definition example_heap : heap :=
  [example_frame; example_frame; example_frame].

End FeatureSelection.

(* ================================================================== *)
(** * The SageMaker Pipelines scheduling notebook *)

Module Scheduling.
Import Notebook.

(** A Python expression given as an argument: a literal, an f-string or
    a name. *)
Inductive arg : Type :=
| Str (s : string)
| FStr (template : string)
| Int (z : Z)
| Name (x : string).

(** [ParameterString(name=..., default_value=...)] and
    [ParameterInteger(...)]. *)
Record parameter : Type := MkParameter {
  parameter_class : string;
  parameter_name : string;
  default_value : option arg
}.

(** A step object: the SDK class it was built from and its [name]. *)
Record step : Type := Step {
  step_class : string;
  step_name : string
}.

Record Pipeline : Type := MkPipeline {
  name : string;
  parameters : list parameter;
  steps : list step
}.

(** *** Training pipeline *)

Definition input_data :=
  MkParameter "ParameterString" "InputData" (Some (Name "data_path")).
Definition processing_instance_type :=
  MkParameter "ParameterString" "ProcessingInstanceType" (Some (Str "ml.m5.xlarge")).
Definition processing_instance_count :=
  MkParameter "ParameterInteger" "ProcessingInstanceCount" (Some (Int 1)).
Definition training_instance_type :=
  MkParameter "ParameterString" "TrainingInstanceType" (Some (Str "ml.c5.2xlarge")).
Definition training_instance_count :=
  MkParameter "ParameterInteger" "TrainingInstanceCount" (Some (Int 1)).
Definition batch_instance_type :=
  MkParameter "ParameterString" "BatchInstanceType" (Some (Str "ml.c5.xlarge")).
Definition batch_instance_count :=
  MkParameter "ParameterInteger" "BatchInstanceCount" (Some (Int 1)).

Definition step_process :=
  Step "ProcessingStep" "scheduled-pipeline-sklearn-process".
Definition step_train :=
  Step "TrainingStep" "scheduled-pipeline-sklearn-training".
Definition step_create_model :=
  Step "CreateModelStep" "scheduled-pipeline-sklearn-createmodel".

Definition training_pipeline : Pipeline :=
  MkPipeline "sklearn-scheduled-training"
    [ input_data; processing_instance_type; processing_instance_count;
      training_instance_type; training_instance_count;
      batch_instance_type; batch_instance_count ]
    [ step_process; step_train; step_create_model ].

(** *** Inference pipeline *)

Definition model_name := MkParameter "ParameterString" "ModelName" None.
Definition test_data := MkParameter "ParameterString" "TestData" None.
Definition output_path :=
  MkParameter "ParameterString" "OutputPath" (Some (FStr "s3://{bucket}/{prefix}/output/")).

Definition transformer_step :=
  Step "TransformStep" "scheduled-pipeline-sklearn-transformer".

Definition inference_pipeline : Pipeline :=
  MkPipeline "sklearn-scheduled-inference"
    [ model_name; test_data; output_path;
      batch_instance_type; batch_instance_count ]
    [ transformer_step ].

(** Every [Pipeline(...)] of the notebook. *)
Definition pipelines : list Pipeline := [training_pipeline; inference_pipeline].

(** The kinds of step the glossary names, and the SDK class of each. *)
Inductive step_kind : Type :=
| processing
| training
| model_creation
| transform.

Definition kind_of (s : step) : option step_kind :=
  if String.eqb (step_class s) "ProcessingStep" then Some processing
  else if String.eqb (step_class s) "TrainingStep" then Some training
  else if String.eqb (step_class s) "CreateModelStep" then Some model_creation
  else if String.eqb (step_class s) "TransformStep" then Some transform
  else None.

(** *** The code cells, top to bottom *)
Definition notebook : Notebook.notebook :=
  let C := Construct in
  [ [ Shell "pip install -q -U git+https://github.com/aws/sagemaker-python-sdk" ];
    [ C "session" "session" []; C "bucket" "bucket" ["session"];
      C "prefix" "prefix" [];
      C "X" "X" []; C "y" "y" [];
      C "data" "data" ["X"; "y"]; Display ["data"];
      C "X_train" "X_train" ["X"; "y"]; C "X_test" "X_test" ["X"; "y"];
      C "y_train" "y_train" ["X"; "y"]; C "y_test" "y_test" ["X"; "y"];
      Display ["X_test"]; Display ["y_test"];
      Service "data_path" "data_path" ["session"; "bucket"; "prefix"];
      Service "x_test_path" "x_test_path" ["session"; "bucket"; "prefix"];
      Service "y_test_path" "y_test_path" ["session"; "bucket"; "prefix"];
      Display ["data_path"] ];
    [ C "sess" "sess" []; C "bucket" "bucket" ["sess"];
      C "role" "role" []; C "region" "region" [] ];
    [ C "input_data" "InputData" ["data_path"];
      C "processing_instance_type" "ProcessingInstanceType" [];
      C "processing_instance_count" "ProcessingInstanceCount" [];
      C "training_instance_type" "TrainingInstanceType" [];
      C "training_instance_count" "TrainingInstanceCount" [];
      C "batch_instance_type" "BatchInstanceType" [];
      C "batch_instance_count" "BatchInstanceCount" [] ];
    [ C "framework_version" "framework_version" [];
      C "sklearn_processor" "sklearn_processor"
        ["framework_version"; "processing_instance_type";
         "processing_instance_count"; "sess"; "role"] ];
    [ C "step_process" "scheduled-pipeline-sklearn-process"
        ["sklearn_processor"; "input_data"] ];
    [ C "sklearn_estimator" "sklearn_estimator"
        ["role"; "training_instance_count"; "training_instance_type";
         "framework_version"] ];
    [ C "step_train" "scheduled-pipeline-sklearn-training"
        ["sklearn_estimator"; "step_process"] ];
    [ C "model" "model" ["framework_version"; "step_train"; "sess"; "role"];
      C "inputs_model" "inputs_model" ["batch_instance_type"];
      C "step_create_model" "scheduled-pipeline-sklearn-createmodel"
        ["model"; "inputs_model"] ];
    [ C "pipeline_name" "pipeline_name" [];
      C "pipeline" "sklearn-scheduled-training"
        ["pipeline_name"; "input_data"; "processing_instance_type";
         "processing_instance_count"; "training_instance_type";
         "training_instance_count"; "batch_instance_type";
         "batch_instance_count"; "step_process"; "step_train";
         "step_create_model"; "sess"] ];
    [ Service "_" "pipeline.upsert" ["pipeline"; "role"];
      Submit "execution" "pipeline" [] ];
    [ Wait "execution" ];
    [ Display ["step_create_model"] ];
    [ C "model_name" "ModelName" []; C "test_data" "TestData" [];
      C "output_path" "OutputPath" ["bucket"; "prefix"];
      C "batch_instance_type" "BatchInstanceType" [];
      C "batch_instance_count" "BatchInstanceCount" [] ];
    [ C "transformer" "transformer"
        ["model_name"; "batch_instance_count"; "batch_instance_type";
         "output_path"] ];
    [ C "transformer_step" "scheduled-pipeline-sklearn-transformer"
        ["transformer"; "test_data"] ];
    [ C "pipeline_name" "pipeline_name" [];
      C "pipeline" "sklearn-scheduled-inference"
        ["pipeline_name"; "model_name"; "test_data"; "output_path";
         "batch_instance_type"; "batch_instance_count"; "transformer_step";
         "sess"] ];
    [ C "definition" "definition" ["pipeline"]; Display ["definition"] ];
    [ Service "_" "pipeline.upsert" ["pipeline"; "role"] ];
    [ Submit "execution" "pipeline" ["step_create_model"; "x_test_path"];
      Wait "execution" ];
    [ Describe "_" "execution" ];
    [ Shell "aws s3 ls s3://$bucket/$prefix/output/" ] ].

(** The recorded run: every call returns but the ninth, the wait on the
    inference pipeline execution, and the execution is "Failed". *)
Definition inference_fails : vendor :=
  Vendor (fun n => negb (Nat.eqb n 8)) (fun _ => "Failed").

End Scheduling.

(* ================================================================== *)
(** * hpo_xgboost_random_log.ipynb *)

Module Tuning.
Import Notebook.

(** The three kinds of range of [sagemaker.tuner] the notebook imports. *)
Inductive parameter_range : Type :=
| ContinuousParameter (min_value max_value : Q) (scaling_type : string)
| IntegerParameter (min_value max_value : Z) (scaling_type : string)
| CategoricalParameter (values : list string).

Record HyperparameterTuner : Type := MkTuner {
  estimator : string;
  objective_metric_name : string;
  hyperparameter_ranges : list (string * parameter_range);
  max_jobs : nat;
  max_parallel_jobs : nat;
  strategy : string
}.

Definition hyperparameter_ranges_log : list (string * parameter_range) :=
  [ ("alpha", ContinuousParameter (1 # 100) 10 "Logarithmic");
    ("lambda", ContinuousParameter (1 # 100) 10 "Logarithmic") ].

Definition tuner_log : HyperparameterTuner :=
  MkTuner "xgb" "validation:auc" hyperparameter_ranges_log 5 5 "Random".

Definition hyperparameter_ranges_linear : list (string * parameter_range) :=
  [ ("alpha", ContinuousParameter (1 # 100) 10 "Linear");
    ("lambda", ContinuousParameter (1 # 100) 10 "Linear") ].

Definition tuner_linear : HyperparameterTuner :=
  MkTuner "xgb" "validation:auc" hyperparameter_ranges_linear 5 5 "Random".

(** Every [HyperparameterTuner(...)] of the notebooks. *)
Definition tuners : list HyperparameterTuner := [tuner_log; tuner_linear].

(** A range that holds bounds and a scaling type, and no candidate
    value. *)
Definition bounds_only (lo hi : Q) (scaling : string) (r : parameter_range)
  : Prop :=
  r = ContinuousParameter lo hi scaling.

(** *** The three-way split *)

Section Split.
Import Py Pandas.

(** [model_data.sample(frac=1, random_state=1729)]: the rows in an
    order that the library draws. *)
Variable sample : list row -> list row.

(** [train_data, validation_data, test_data = np.split(
      model_data.sample(frac=1, random_state=1729),
      [int(0.7 * len(model_data)), int(0.9 * len(model_data))])] *)
Definition train_validation_test (model_data : list row)
  : result (list row * list row * list row) :=
  let shuffled := sample model_data in
  let n := Z.of_nat (length model_data) in
  match Float64.int_of_scaled (Float64.literal 7 10) n with
  | Raise e => Raise e
  | Ok i1 =>
      match Float64.int_of_scaled (Float64.literal 9 10) n with
      | Raise e => Raise e
      | Ok i2 =>
          match Numpy.split shuffled [i1; i2] with
          | [train_data; validation_data; test_data] =>
              Ok (train_data, validation_data, test_data)
          | _ => Raise ValueError
          end
      end
  end.
End Split.

(** The sizes a split at exactly 70% and 90% of [n] rows, rounded down,
    would have. *)
Definition exact_sizes (n : Z) : Z * Z * Z :=
  let a := Qfloor ((7 # 10) * inject_Z n) in
  let b := Qfloor ((9 # 10) * inject_Z n) in
  (a, (b - a)%Z, (n - b)%Z).

Definition sizes (parts : list Pandas.row * list Pandas.row * list Pandas.row)
  : Z * Z * Z :=
  let '(a, b, c) := parts in
  (Z.of_nat (length a), Z.of_nat (length b), Z.of_nat (length c)).

(** *** The code cells, top to bottom *)
Definition notebook : Notebook.notebook :=
  let C := Construct in
  [ [ C "region" "region" []; C "smclient" "smclient" [];
      C "role" "role" []; C "bucket" "bucket" []; C "prefix" "prefix" [] ];
    [ Shell "wget -N https://archive.ics.uci.edu/ml/machine-learning-databases/00222/bank-additional.zip";
      Shell "unzip -o bank-additional.zip" ];
    [ C "data" "data" []; Display []; Display [];
      C "data" "data" ["data"]; C "data" "data" ["data"];
      C "model_data" "model_data" ["data"];
      C "model_data" "model_data" ["model_data"];
      C "train_data" "train_data" ["model_data"];
      C "validation_data" "validation_data" ["model_data"];
      C "test_data" "test_data" ["model_data"];
      Display ["train_data"]; Display ["validation_data"]; Display ["test_data"];
      Service "_" "train/train.csv" ["bucket"; "prefix"];
      Service "_" "validation/validation.csv" ["bucket"; "prefix"] ];
    [ C "s3_input_train" "s3_input_train" ["bucket"; "prefix"];
      C "s3_input_validation" "s3_input_validation" ["bucket"; "prefix"] ];
    [ C "sess" "sess" []; C "container" "container" ["region"];
      C "xgb" "xgb" ["container"; "role"; "bucket"; "prefix"; "sess"];
      C "xgb" "xgb" ["xgb"];
      C "objective_metric_name" "objective_metric_name" [] ];
    [ C "hyperparameter_ranges" "hyperparameter_ranges" [] ];
    [ C "tuner_log" "tuner_log"
        ["xgb"; "objective_metric_name"; "hyperparameter_ranges"];
      Fit "tuner_log" ["s3_input_train"; "s3_input_validation"] ];
    [ Describe "_" "tuner_log.latest_tuning_job" ];
    [ C "hyperparameter_ranges_linear" "hyperparameter_ranges_linear" [];
      C "tuner_linear" "tuner_linear"
        ["xgb"; "objective_metric_name"; "hyperparameter_ranges_linear"];
      C "job_name" "job_name" ["tuner_log.latest_tuning_job"];
      Fit "tuner_linear"
        ["s3_input_train"; "s3_input_validation"; "job_name"] ];
    [ Describe "_" "tuner_linear.latest_tuning_job" ];
    [ Describe "status_log" "tuner_log.latest_tuning_job";
      Describe "status_linear" "tuner_linear.latest_tuning_job";
      AssertCompleted "status_log";
      AssertCompleted "status_linear";
      Analytics "df_log" "tuner_log.latest_tuning_job";
      Analytics "df_linear" "tuner_linear.latest_tuning_job";
      Concat "df_log" ["df_log"];
      Concat "df_linear" ["df_linear"];
      Concat "df" ["df_log"; "df_linear"] ];
    [ Plot "df" ];
    [ Service "predictor" "predictor" ["tuner_linear"] ];
    [ Service "_" "delete_endpoint" ["sess"; "predictor"] ] ].

(** A service under which every call returns and no job is ever
    "Completed". *)
Definition never_completed : vendor :=
  Vendor (fun _ => true) (fun _ => "Failed").

End Tuning.

(** The three notebooks. *)
Definition notebooks : list Notebook.notebook :=
  [FeatureSelection.notebook; Scheduling.notebook; Tuning.notebook].

(* ================================================================== *)
(** * The scoring cells of the feature selection notebook *)

Module FeatureScores.
Import Py Pandas FeatureSelection.

(** How a loop over the scores ends. *)
Inductive loop_end : Type :=
| Finished
| IndexError.

(** The loop of the two scoring cells, from [index] on:
    [for index, importance_score in enumerate(scores):
       print("Feature: {}, Score: {}".format(X_train.columns[index],
                                             importance_score))].
    The lines printed, as (feature, score), and how the loop ends. *)
Fixpoint print_scores_from (index : nat) (cols : list label) (scores : list Q)
  : list (label * Q) * loop_end :=
  match scores with
  | [] => ([], Finished)
  | importance_score :: scores' =>
      match nth_error cols index with
      | None => ([], IndexError)
      | Some feature =>
          let (lines, e) := print_scores_from (S index) cols scores' in
          ((feature, importance_score) :: lines, e)
      end
  end.

Definition print_scores (scores : list Q) (X_train : DataFrame)
  : list (label * Q) * loop_end :=
  print_scores_from 0 (columns X_train) scores.

(** A score above the threshold. *)
Definition above (threshold : Q) (score : Q) : bool :=
  negb (Qle_bool score threshold).

(** The columns of [data] whose score is above the threshold. *)
Definition columns_above (lst : list Q) (data : DataFrame) (threshold : Q)
  : DataFrame :=
  map fst (filter (fun cs => above threshold (snd cs)) (combine data lst)).

End FeatureScores.

(* ================================================================== *)
(** * The files the tuning notebook writes, and the second job's name *)

Module TuningData.
Import Py Pandas.

(** [df[l]]: the columns labelled [l] (one, when labels are unique);
    [KeyError] when there is none. *)
Definition getitem (l : label) (df : DataFrame) : result DataFrame :=
  match filter (fun c => String.eqb (col_label c) l) df with
  | [] => Raise KeyError
  | c :: cs => Ok (c :: cs)
  end.

(** [pd.concat(objs, axis=1)], of objects that share their index: their
    columns side by side, in the order given. *)
Definition concat_columns (objs : list DataFrame) : DataFrame := concat objs.

(** [pd.concat([df["y_yes"], df.drop(["y_no", "y_yes"], axis=1)], axis=1)],
    the frame each of the three [to_csv] calls writes. *)
Definition label_first (df : DataFrame) : result DataFrame :=
  match getitem "y_yes" df with
  | Raise e => Raise e
  | Ok y =>
      match drop ["y_no"; "y_yes"] df with
      | Raise e => Raise e
      | Ok X => Ok (concat_columns [y; X])
      end
  end.

(** [job_name = tuner_log.latest_tuning_job.job_name + "linear"] *)
Definition job_name (log_job_name : string) : string :=
  String.append log_job_name "linear".

(** A frame with the two indicator columns of the target among its
    features. *)
Definition example_model_data : DataFrame :=
  [Column "age" [56; 57]%Q; Column "y_no" [1; 0]%Q;
   Column "campaign" [1; 1]%Q; Column "y_yes" [0; 1]%Q].

End TuningData.

(* ================================================================== *)
(** * What every run of a notebook does

    Properties of the runs of one notebook, each with the check that
    computes it on a trace.  [seen] is the part of the trace before the
    event looked at, latest first. *)

Module Runs.
Import Py Notebook.

Definition event_eq_dec (x y : event) : {x = y} + {x <> y}.
Proof. repeat decide equality. Defined.

(** [x] is among the events [l]. *)
Definition occurs (x : event) (l : list event) : bool :=
  if in_dec event_eq_dec x l then true else false.

(** The status that the latest describe of job [j] that returned gave;
    [seen] has the latest event first. *)
Fixpoint last_status (j : nat) (seen : list event) : option string :=
  match seen with
  | [] => None
  | EDescribe j' (Some s) :: seen' =>
      if Nat.eqb j j' then Some s else last_status j seen'
  | _ :: seen' => last_status j seen'
  end.

(** The job started latest. *)
Fixpoint last_submitted (seen : list event) : option nat :=
  match seen with
  | [] => None
  | ESubmit _ j _ :: _ => Some j
  | _ :: seen' => last_submitted seen'
  end.

(** A trace with each status read as "Completed" or "Other". *)
Definition shape (tr : list event) : list event :=
  map (map_event normal) tr.

(** An event that carries no status. *)
Definition plain (x : event) : Prop :=
  match x with
  | EDescribe _ (Some _) => False
  | _ => True
  end.

Definition reads_results (e : event) : bool :=
  match e with
  | EAnalytics _ _ | EPlot _ => true
  | _ => false
  end.

Definition is_local (e : event) : bool :=
  match e with
  | EConstruct _ _ | EShell _ => true
  | _ => false
  end.

(** *** The tuning notebook *)

(** [tuner_log.fit(...)] and [tuner_linear.fit(..., job_name=job_name)],
    accepted. *)
Definition fit_log : event :=
  ESubmit "tuner_log" 0 ["s3_input_train"; "s3_input_validation"].
Definition fit_linear : event :=
  ESubmit "tuner_linear" 1
    ["s3_input_train"; "s3_input_validation"; "job_name"].

(** [tuner_linear.deploy(...)], returned. *)
Definition deployed : event := EService "predictor" ["tuner_linear"] true.

(** [sess.delete_endpoint(endpoint_name=predictor.endpoint_name)] *)
Definition delete_endpoint (ok : bool) : event :=
  EService "delete_endpoint" ["sess"; "predictor"] ok.

(** The only jobs are the two tuning jobs, and the linear one is started
    after the logarithmic one. *)
Definition linear_after_log (tr : list event) : Prop :=
  forall pre r j us post, tr = pre ++ ESubmit r j us :: post ->
    ESubmit r j us = fit_log \/
    (ESubmit r j us = fit_linear /\ In fit_log pre).

(** Results are read and drawn only when both jobs were started and
    the latest status received for each is "Completed"; the figure comes
    after both reads returned and shows both jobs. *)
Definition results_after_both_completed (tr : list event) : Prop :=
  forall pre e post, tr = pre ++ e :: post -> reads_results e = true ->
    In fit_log pre /\ In fit_linear pre /\
    last_status 0 (rev pre) = Some "Completed" /\
    last_status 1 (rev pre) = Some "Completed" /\
    (forall js, e = EPlot js ->
       js = [0; 1]%nat /\
       In (EAnalytics 0 true) pre /\ In (EAnalytics 1 true) pre).

(** The endpoint is deleted only after the deployment returned, and a
    deployment that returned is followed by the request to delete. *)
Definition endpoint_cleaned_up (tr : list event) : Prop :=
  (forall pre obj us ok post,
     tr = pre ++ EService obj us ok :: post -> obj = "delete_endpoint" ->
     us = ["sess"; "predictor"] /\ In deployed pre) /\
  (forall pre post, tr = pre ++ deployed :: post ->
     exists ok, In (delete_endpoint ok) post).

Definition ok_jobs (seen : list event) (e : event) : bool :=
  match e with
  | ESubmit _ _ _ =>
      occurs e [fit_log] || (occurs e [fit_linear] && occurs fit_log seen)
  | _ => true
  end.

Definition status_completed (s : option string) : bool :=
  match s with
  | Some s => is_completed s
  | None => false
  end.

Definition ok_results (seen : list event) (e : event) : bool :=
  if reads_results e then
    occurs fit_log seen && occurs fit_linear seen &&
    status_completed (last_status 0 seen) &&
    status_completed (last_status 1 seen) &&
    match e with
    | EPlot js =>
        occurs e [EPlot [0; 1]%nat] &&
        occurs (EAnalytics 0 true) seen && occurs (EAnalytics 1 true) seen
    | _ => true
    end
  else true.

Definition ok_endpoint (seen : list event) (e : event) (post : list event)
  : bool :=
  match e with
  | EService obj us ok =>
      (if String.eqb obj "delete_endpoint"
       then occurs e [delete_endpoint ok] && occurs deployed seen
       else true) &&
      (if occurs e [deployed]
       then occurs (delete_endpoint true) post ||
            occurs (delete_endpoint false) post
       else true)
  | _ => true
  end.

Definition ok_tuning (seen : list event) (e : event) (post : list event)
  : bool :=
  ok_jobs seen e && ok_results seen e && ok_endpoint seen e post.

(** *** The scheduling notebook *)

(** [pipeline.upsert(role_arn=role)] of the training pipeline,
    returned. *)
Definition upserted : event :=
  EService "pipeline.upsert" ["sklearn-scheduled-training"; "role"] true.

(** The upload of the test features, returned. *)
Definition x_test_uploaded : event :=
  EService "x_test_path" ["session"; "bucket"; "prefix"] true.

Definition start_training : event :=
  ESubmit "sklearn-scheduled-training" 0 [].

(** The training pipeline is started only after its upsert returned,
    the inference pipeline only after the test features were uploaded. *)
Definition started_after_prerequisites (tr : list event) : Prop :=
  forall pre r j us post, tr = pre ++ ESubmit r j us :: post ->
    (r = "sklearn-scheduled-training" /\ In upserted pre) \/
    (r = "sklearn-scheduled-inference" /\ In x_test_uploaded pre).

(** [execution] is the execution started latest: every wait and
    describe is on it. *)
Definition polls_latest_execution (tr : list event) : Prop :=
  forall pre e post j, tr = pre ++ e :: post -> polls j e = true ->
    last_submitted (rev pre) = Some j.

(** When the start of the inference pipeline is refused, what is
    described afterwards is the execution of the training pipeline. *)
Definition stale_execution_described (tr : list event) : Prop :=
  forall pre post,
    tr = pre ++ ESubmitRejected "sklearn-scheduled-inference" :: post ->
    forall e j, In e post -> polls j e = true ->
      j = 0%nat /\ In start_training pre.

Definition ok_started (seen : list event) (e : event) : bool :=
  match e with
  | ESubmit r _ _ =>
      (String.eqb r "sklearn-scheduled-training" && occurs upserted seen) ||
      (String.eqb r "sklearn-scheduled-inference" &&
       occurs x_test_uploaded seen)
  | _ => true
  end.

Definition polled (e : event) : option nat :=
  match e with
  | EWait j _ | EDescribe j _ => Some j
  | _ => None
  end.

Definition ok_latest (seen : list event) (e : event) : bool :=
  match polled e with
  | Some j =>
      match last_submitted seen with
      | Some j' => Nat.eqb j j'
      | None => false
      end
  | None => true
  end.

Definition ok_stale (seen : list event) (e : event) (post : list event)
  : bool :=
  if occurs e [ESubmitRejected "sklearn-scheduled-inference"]
  then forallb
         (fun e' =>
            match polled e' with
            | Some j => Nat.eqb j 0 && occurs start_training seen
            | None => true
            end) post
  else true.

Definition ok_scheduling (seen : list event) (e : event) (post : list event)
  : bool :=
  ok_started seen e && ok_latest seen e && ok_stale seen e post.

(** A service that refuses the start of the inference pipeline (its
    eighth call) and answers every other call. *)
Definition start_refused : vendor :=
  Vendor (fun n => negb (Nat.eqb n 7)) (fun _ => "Succeeded").

(** *** The feature selection notebook *)

Definition ok_local (seen : list event) (e : event) (post : list event)
  : bool := is_local e.

End Runs.

(* ================================================================== *)
(** * Properties *)

(** ** Lists, sorting *)

Module PyFacts.
Import Py.

Section Sorted.
Context {A : Type}.
Variable key : A -> Q.
Variable reverse : bool.

Local Abbreviation in_order := (in_order key reverse).

Lemma place_true x y : place key reverse x y = true -> in_order x y.
Proof.
  unfold place, in_order. destruct reverse; apply Qle_bool_iff.
Qed.

Lemma place_false x y : place key reverse x y = false -> in_order y x.
Proof.
  unfold place, in_order. intros H.
  destruct reverse;
    apply Qlt_le_weak, Qnot_le_lt; intros Hle;
    apply Qle_bool_iff in Hle; congruence.
Qed.

Lemma in_order_trans x y z : in_order x y -> in_order y z -> in_order x z.
Proof.
  unfold in_order. destruct reverse; intros H1 H2.
  - now apply Qle_trans with (key y).
  - now apply Qle_trans with (key y).
Qed.

Lemma insert_perm x l : Permutation (insert key reverse x l) (x :: l).
Proof.
  induction l as [|y l IH]; simpl.
  - reflexivity.
  - destruct (place key reverse x y).
    + reflexivity.
    + rewrite IH. apply perm_swap.
Qed.

Lemma sorted_perm l : Permutation (sorted key reverse l) l.
Proof.
  induction l as [|x l IH]; simpl.
  - reflexivity.
  - rewrite insert_perm. now constructor.
Qed.

Lemma insert_sorted x l :
  StronglySorted in_order l ->
  StronglySorted in_order (insert key reverse x l).
Proof.
  induction 1 as [|y l Hs IH Hall]; simpl.
  - repeat constructor.
  - destruct (place key reverse x y) eqn:E.
    + constructor.
      * now constructor.
      * constructor.
        -- now apply place_true.
        -- apply place_true in E.
           eapply Forall_impl; [|exact Hall].
           intros z Hz. now apply in_order_trans with y.
    + constructor; [exact IH|].
      apply place_false in E.
      eapply Permutation_Forall.
      * symmetry. apply insert_perm.
      * now constructor.
Qed.

Lemma sorted_sorted l : StronglySorted in_order (sorted key reverse l).
Proof.
  induction l as [|x l IH]; simpl.
  - constructor.
  - now apply insert_sorted.
Qed.
End Sorted.

(** Equal keys keep their input order, also with [reverse=True]. *)
Example sorted_is_stable :
  sorted (fun t : string * Q => snd t) true
    [("a", 1); ("b", 2); ("c", 1); ("d", 2)]%Q
  = [("b", 2); ("d", 2); ("a", 1); ("c", 1)]%Q.
Proof. reflexivity. Qed.

End PyFacts.

(** ** The feature-selection notebook *)

Module FeatureSelectionFacts.
Import Py Pandas FeatureSelection PyFacts.

Example drop_unknown_label :
  drop ["f0"; "f7"] example_frame = Raise KeyError.
Proof. reflexivity. Qed.

Example drop_known_label :
  drop ["f0"] example_frame = Ok [Column "f1" [3; 4]%Q].
Proof. reflexivity. Qed.

Example show_ranked_example :
  show_ranked_feature_importance_list example_scores example_frame
  = Printed ["Feature"; "Importance Score"] [("f1", 1 # 2); ("f0", 1 # 200)].
Proof. reflexivity. Qed.

(** The loop computes the labels of the low-score pairs, in order. *)
Lemma features_to_remove_filter lst cols thr :
  features_to_remove lst cols thr =
  map fst (filter (fun p => Qle_bool (snd p) thr) (combine cols lst)).
Proof.
  unfold features_to_remove.
  enough (G : forall ps acc,
    fold_left
      (fun acc (pair : label * Q) =>
         if Qle_bool (snd pair) thr then acc ++ [fst pair] else acc) ps acc
    = acc ++ map fst (filter (fun p => Qle_bool (snd p) thr) ps))
    by (rewrite G; reflexivity).
  induction ps as [|p ps IH]; intros acc; simpl.
  - now rewrite app_nil_r.
  - rewrite IH. destruct (Qle_bool (snd p) thr); simpl.
    + now rewrite <- app_assoc.
    + reflexivity.
Qed.

Lemma mem_In l ls : mem l ls = true <-> In l ls.
Proof.
  unfold mem. rewrite existsb_exists. split.
  - intros [x [Hin Heq]]. apply String.eqb_eq in Heq. now subst.
  - intros Hin. exists l. split; [exact Hin|apply String.eqb_refl].
Qed.

(** Every label the loop collects names a column of the frame. *)
Lemma features_to_remove_columns lst cols thr l :
  In l (features_to_remove lst cols thr) -> In l cols.
Proof.
  rewrite features_to_remove_filter, in_map_iff.
  intros [[c q] [Heq Hin]]. simpl in Heq. subst c.
  apply filter_In in Hin. destruct Hin as [Hin _].
  now apply in_combine_l in Hin.
Qed.

(** So [data.drop] finds all of them and raises no [KeyError]. *)
Lemma drop_features_to_remove lst df thr :
  exists df', drop (features_to_remove lst (columns df) thr) df = Ok df'.
Proof.
  unfold drop.
  destruct (forallb _ _) eqn:E; [eauto|].
  exfalso.
  assert (F : forallb (fun l => mem l (columns df))
                (features_to_remove lst (columns df) thr) = true).
  { apply forallb_forall. intros l Hl. apply mem_In.
    now apply features_to_remove_columns in Hl. }
  congruence.
Qed.

Lemma deref_alloc h df r df0 :
  deref h r = Some df0 -> deref (snd (alloc h df)) r = Some df0.
Proof.
  unfold deref, alloc. simpl. intros H.
  rewrite nth_error_app1; [exact H|].
  apply nth_error_Some. congruence.
Qed.

(** One call: it returns [None] and no object of the heap has changed. *)
Lemma remove_features_preserves lst data thr h df :
  deref h data = Some df ->
  exists h',
    remove_features lst data thr h = (Ok tt, h') /\
    forall r df0, deref h r = Some df0 -> deref h' r = Some df0.
Proof.
  intros Hd. unfold remove_features. rewrite Hd.
  destruct (features_to_remove lst (columns df) thr) eqn:E.
  - exists h. auto.
  - destruct (drop_features_to_remove lst df thr) as [df' Hdrop].
    rewrite E in Hdrop. rewrite Hdrop.
    exists (snd (alloc h df')). split; [reflexivity|].
    intros r df0. apply deref_alloc.
Qed.

(** C2. [remove_features(lst, data, threshold)] returns normally and
    leaves the frame [data] refers to exactly as it was (same columns, same
    order, same cells), whatever the scores and the threshold: the frame
    built by [data.drop] is a new object that nobody keeps.  In
    particular the three pruning calls of the notebook leave [X_train],
    [X_val] and [X_test] as they were. *)
Theorem remove_features_leaves_data_unchanged
    (h : heap) (X_train X_val X_test : ref) (dtr dva dte : DataFrame) :
  deref h X_train = Some dtr ->
  deref h X_val = Some dva ->
  deref h X_test = Some dte ->
  (forall lst data thr df,
      deref h data = Some df ->
      exists h',
        remove_features lst data thr h = (Ok tt, h') /\
        deref h' data = Some df) /\
  (forall feature_importances_xgboost,
      exists h',
        prune_cell feature_importances_xgboost X_train X_val X_test h
          = (Ok tt, h') /\
        deref h' X_train = Some dtr /\
        deref h' X_val = Some dva /\
        deref h' X_test = Some dte).
Proof.
  intros Htr Hva Hte. split.
  - intros lst data thr df Hd.
    destruct (remove_features_preserves lst data thr h df Hd) as [h' [E P]].
    exists h'. auto.
  - intros scores. unfold prune_cell.
    destruct (remove_features_preserves scores X_train threshold h dtr Htr)
      as [h1 [E1 P1]].
    rewrite E1.
    destruct (remove_features_preserves scores X_val threshold h1 dva
                (P1 _ _ Hva)) as [h2 [E2 P2]].
    rewrite E2.
    destruct (remove_features_preserves scores X_test threshold h2 dte
                (P2 _ _ (P1 _ _ Hte))) as [h3 [E3 P3]].
    exists h3. repeat split; auto.
Qed.

Lemma remove_features_leaves_data_unchanged_witness :
  deref example_heap 0%nat = Some example_frame /\
  deref example_heap 1%nat = Some example_frame /\
  deref example_heap 2%nat = Some example_frame /\
  exists h',
    prune_cell example_scores 0%nat 1%nat 2%nat example_heap = (Ok tt, h') /\
    deref h' 0%nat = Some example_frame /\
    deref h' 1%nat = Some example_frame /\
    deref h' 2%nat = Some example_frame.
Proof.
  repeat (split; [reflexivity|]).
  exact (proj2 (remove_features_leaves_data_unchanged
                  example_heap 0%nat 1%nat 2%nat
                  example_frame example_frame example_frame
                  eq_refl eq_refl eq_refl) example_scores).
Defined.

(** C1 (the code at a failing input).  With scores [0.005, 0.5] and
    threshold [0.01] the first column's score is at most the threshold,
    yet after the call the frame still has both columns: the pruned frame
    is the fresh object at the end of the heap, which is unreachable. *)
Lemma remove_features_keeps_low_score_column :
  Qle_bool (1 # 200) threshold = true /\
  exists h',
    remove_features example_scores 0%nat threshold [example_frame]
      = (Ok tt, h') /\
    option_map columns (deref h' 0%nat) = Some ["f0"; "f1"] /\
    option_map columns (deref h' 1%nat) = Some ["f1"].
Proof.
  split; [reflexivity|].
  eexists. split; [reflexivity|]. split; reflexivity.
Qed.

Lemma map_fst_combine {A B} (l1 : list A) (l2 : list B) :
  length l2 = length l1 -> map fst (combine l1 l2) = l1.
Proof.
  revert l2. induction l1 as [|a l1 IH]; intros [|b l2] H;
    simpl in *; try reflexivity; try discriminate.
  f_equal. apply IH. now injection H.
Qed.



End FeatureSelectionFacts.

(** ** Runs of the notebooks *)

Module NotebookFacts.
Import Py Notebook.

(** *** The counters only grow *)

Ltac exec_cases v s st :=
  destruct s; simpl;
  repeat match goal with
    | |- context [match lookups ?u ?e with _ => _ end] =>
        destruct (lookups u e)
    | |- context [match lookup ?x ?e with _ => _ end] =>
        destruct (lookup x e) as [[| | |]|]
    | |- context [match results ?vs with _ => _ end] =>
        destruct (results vs)
    | |- context [if returns v ?n then _ else _] =>
        destruct (returns v n); simpl
    | |- context [if is_completed ?x then _ else _] =>
        destruct (is_completed x)
    end; simpl.

Lemma exec_grows v s st :
  (calls st <= calls (snd (exec v s st)))%nat /\
  (reads st <= reads (snd (exec v s st)))%nat.
Proof. exec_cases v s st; lia. Qed.

Lemma run_cell_grows v c : forall st,
  (calls st <= calls (run_cell v c st))%nat /\
  (reads st <= reads (run_cell v c st))%nat.
Proof.
  induction c as [|s c IH]; intros st; simpl; [lia|].
  pose proof (exec_grows v s st) as G.
  destruct (exec v s st) as [[u|e] st']; simpl in G.
  - specialize (IH st'). lia.
  - exact G.
Qed.

Lemma run_grows v nb : forall st,
  (calls st <= calls (run v nb st))%nat /\
  (reads st <= reads (run v nb st))%nat.
Proof.
  induction nb as [|c nb IH]; intros st; simpl; [lia|].
  pose proof (run_cell_grows v c st). specialize (IH (run_cell v c st)). lia.
Qed.

(** *** A run depends on the answers it asked for, and no others *)

Lemma agree_le v v' c r c' r' :
  agree v v' c r -> (c' <= c)%nat -> (r' <= r)%nat -> agree v v' c' r'.
Proof.
  intros [A B] Hc Hr. split; intros; [apply A|apply B]; lia.
Qed.

Lemma exec_local v v' s st :
  agree v v' (calls (snd (exec v s st))) (reads (snd (exec v s st))) ->
  exec v' s st = exec v s st.
Proof.
  destruct s; simpl; try reflexivity;
    repeat match goal with
      | |- context [match lookups ?u ?e with _ => _ end] =>
          destruct (lookups u e)
      | |- context [match lookup ?x ?e with _ => _ end] =>
          destruct (lookup x e) as [[| | |]|]
      end; try reflexivity;
    repeat match goal with
      | |- context [if returns v ?n then _ else _] =>
          let E := fresh "E" in destruct (returns v n) eqn:E; simpl
      end;
    intros [A B];
    repeat match goal with
      | |- context [returns v' ?n] => rewrite (A n) by (simpl; lia)
      | |- context [status v' ?n] => rewrite (B n) by (simpl; lia)
      | E : returns v ?n = _ |- context [returns v ?n] => rewrite E
      end; simpl;
    repeat match goal with
      | |- context [returns v' ?n] => rewrite (A n) by (simpl; lia)
      | E : returns v ?n = _ |- context [returns v ?n] => rewrite E
      end; reflexivity.
Qed.

Lemma run_cell_local v v' c : forall st,
  agree v v' (calls (run_cell v c st)) (reads (run_cell v c st)) ->
  run_cell v' c st = run_cell v c st.
Proof.
  induction c as [|s c IH]; intros st; simpl; [reflexivity|].
  intros A.
  assert (E : exec v' s st = exec v s st).
  { apply exec_local.
    destruct (exec v s st) as [[u|e] st'] eqn:X; simpl in *.
    - pose proof (run_cell_grows v c st').
      eapply agree_le; [exact A|lia|lia].
    - exact A. }
  rewrite E. destruct (exec v s st) as [[u|e] st']; [|reflexivity].
  now apply IH.
Qed.

Lemma run_local v v' nb : forall st,
  agree v v' (calls (run v nb st)) (reads (run v nb st)) ->
  run v' nb st = run v nb st.
Proof.
  induction nb as [|c nb IH]; intros st; simpl; [reflexivity|].
  intros A.
  assert (E : run_cell v' c st = run_cell v c st).
  { apply run_cell_local.
    pose proof (run_grows v nb (run_cell v c st)).
    eapply agree_le; [exact A|lia|lia]. }
  rewrite E. now apply IH.
Qed.


(** *** The exploration covers every service *)

Lemma nth_snoc_lt {A} (l : list A) (x d : A) n :
  (n < length l)%nat -> nth n (l ++ [x]) d = nth n l d.
Proof. intros H. now apply app_nth1. Qed.

Lemma nth_snoc_eq {A} (l : list A) (x d : A) :
  nth (length l) (l ++ [x]) d = x.
Proof. rewrite app_nth2, Nat.sub_diag by lia. reflexivity. Qed.

Lemma agree_more_returns rs ss v b :
  agree (scripted rs ss) v (length rs) (length ss) ->
  returns v (length rs) = b ->
  agree (scripted (rs ++ [b]) ss) v (length (rs ++ [b])) (length ss).
Proof.
  intros [A B] E. split; [|exact B].
  intros n Hn. rewrite length_app in Hn. simpl in *.
  destruct (Nat.eq_dec n (length rs)) as [->|Hne].
  - now rewrite nth_snoc_eq.
  - rewrite nth_snoc_lt by lia. apply A. lia.
Qed.

Lemma agree_more_statuses rs ss v s :
  agree (scripted rs ss) v (length rs) (length ss) ->
  status v (length ss) = s ->
  agree (scripted rs (ss ++ [s])) v (length rs) (length (ss ++ [s])).
Proof.
  intros [A B] E. split; [exact A|].
  intros n Hn. rewrite length_app in Hn. simpl in *.
  destruct (Nat.eq_dec n (length ss)) as [->|Hne].
  - now rewrite nth_snoc_eq.
  - rewrite nth_snoc_lt by lia. apply B. lia.
Qed.

Lemma explore_sound ok nb fuel : forall rs ss,
  explore ok nb fuel rs ss = true ->
  forall v, two_statuses v ->
    agree (scripted rs ss) v (length rs) (length ss) ->
    scan ok [] (trace v nb) = true.
Proof.
  assert (Done : forall rs ss v,
    (calls (run (scripted rs ss) nb initial) <= length rs)%nat ->
    (reads (run (scripted rs ss) nb initial) <= length ss)%nat ->
    agree (scripted rs ss) v (length rs) (length ss) ->
    scan ok [] (rev (log (run (scripted rs ss) nb initial))) = true ->
    scan ok [] (trace v nb) = true).
  { intros rs ss v Hc Hr A H. unfold trace.
    rewrite (run_local (scripted rs ss) v); [exact H|].
    eapply agree_le; eauto. }
  induction fuel as [|fuel IH]; intros rs ss H v T A; simpl in H;
    (destruct (Nat.leb_spec (calls (run (scripted rs ss) nb initial))
                 (length rs)) as [Hc|Hc];
     [destruct (Nat.leb_spec (reads (run (scripted rs ss) nb initial))
                  (length ss)) as [Hr|Hr]|]);
    try discriminate; eauto.
  - apply andb_prop in H. destruct H as [H1 H2].
    destruct (T (length ss)) as [E|E].
    + apply (IH _ _ H1 v T). now apply agree_more_statuses.
    + apply (IH _ _ H2 v T). now apply agree_more_statuses.
  - apply andb_prop in H. destruct H as [H1 H2].
    destruct (returns v (length rs)) eqn:E.
    + apply (IH _ _ H1 v T). now apply agree_more_returns.
    + apply (IH _ _ H2 v T). now apply agree_more_returns.
Qed.

(** *** Renaming the statuses *)

Section Renaming.
Variable f : string -> string.
Hypothesis f_completed : forall s, is_completed (f s) = is_completed s.

Lemma lookup_map x e :
  lookup x (map_env f e) = option_map (map_value f) (lookup x e).
Proof.
  induction e as [|[y w] e IH]; simpl; [reflexivity|].
  destruct (String.eqb x y); [reflexivity|exact IH].
Qed.

Lemma lookups_map us e :
  lookups us (map_env f e) = option_map (map (map_value f)) (lookups us e).
Proof.
  induction us as [|x us IH]; simpl; [reflexivity|].
  rewrite lookup_map, IH.
  destruct (lookup x e), (lookups us e); reflexivity.
Qed.

Lemma objects_map vs : objects (map (map_value f) vs) = objects vs.
Proof.
  induction vs as [|[| | |] vs IH]; simpl; congruence.
Qed.

Lemma results_map vs : results (map (map_value f) vs) = results vs.
Proof.
  induction vs as [|[| | |] vs IH]; simpl; try reflexivity.
  now rewrite IH.
Qed.

Lemma exec_map v s st :
  exec (map_vendor f v) s (map_state f st) =
  (fst (exec v s st), map_state f (snd (exec v s st))).
Proof.
  destruct st as [e c r j l].
  destruct s; simpl;
    fold (map_env f e);
    rewrite ?lookups_map, ?lookup_map;
    repeat match goal with
      | |- context [match lookups ?u ?e with _ => _ end] =>
          destruct (lookups u e); simpl
      | |- context [match lookup ?x ?e with _ => _ end] =>
          destruct (lookup x e) as [[| | |]|]; simpl
      end;
    rewrite ?objects_map, ?results_map, ?f_completed;
    repeat match goal with
      | |- context [match results ?vs with _ => _ end] =>
          destruct (results vs); simpl
      | |- context [if returns v ?n then _ else _] =>
          destruct (returns v n); simpl
      | |- context [if is_completed ?x then _ else _] =>
          destruct (is_completed x); simpl
      end; reflexivity.
Qed.

Lemma run_cell_map v c : forall st,
  run_cell (map_vendor f v) c (map_state f st) =
  map_state f (run_cell v c st).
Proof.
  induction c as [|s c IH]; intros st; simpl; [reflexivity|].
  rewrite exec_map.
  destruct (exec v s st) as [[u|e] st']; simpl; [apply IH|reflexivity].
Qed.

Lemma run_map v nb : forall st,
  run (map_vendor f v) nb (map_state f st) = map_state f (run v nb st).
Proof.
  induction nb as [|c nb IH]; intros st; simpl; [reflexivity|].
  now rewrite run_cell_map, IH.
Qed.

Lemma trace_map v nb :
  trace (map_vendor f v) nb = map (map_event f) (trace v nb).
Proof.
  unfold trace.
  change initial with (map_state f initial) at 1.
  rewrite run_map. simpl. now rewrite map_rev.
Qed.

(** The checks do not see the renaming. *)

Lemma existsb_map (p : event -> bool) l :
  (forall e, p (map_event f e) = p e) ->
  existsb p (map (map_event f) l) = existsb p l.
Proof. intros E. induction l; simpl; congruence. Qed.

Lemma forallb_eq {A} (p q : A -> bool) l :
  (forall x, p x = q x) -> forallb p l = forallb q l.
Proof. intros E. induction l; simpl; congruence. Qed.

Lemma constructs_map o e : constructs o (map_event f e) = constructs o e.
Proof. destruct e; try reflexivity. destruct status0; reflexivity. Qed.

Lemma polls_map j e : polls j (map_event f e) = polls j e.
Proof. destruct e; try reflexivity. destruct status0; reflexivity. Qed.

Lemma observes_completed_map j e :
  observes_completed j (map_event f e) = observes_completed j e.
Proof.
  destruct e; try reflexivity. destruct status0; simpl; [|reflexivity].
  now rewrite f_completed.
Qed.

Lemma submits_map r e : submits r (map_event f e) = submits r e.
Proof. destruct e; try reflexivity. destruct status0; reflexivity. Qed.

Lemma acts_on_map j e : acts_on j (map_event f e) = acts_on j e.
Proof. destruct e; try reflexivity. destruct status0; reflexivity. Qed.

Lemma all_constructed_map seen os :
  all_constructed (map (map_event f) seen) os = all_constructed seen os.
Proof.
  unfold all_constructed. apply forallb_eq. intros o.
  apply existsb_map. intros x. apply constructs_map.
Qed.

Lemma ok_constructed_map seen e :
  ok_constructed (map (map_event f) seen) (map_event f e)
  = ok_constructed seen e.
Proof.
  destruct e as [| | | | | |j [s|]| | |]; apply all_constructed_map || reflexivity.
Qed.

Lemma ok_polled_map e post :
  ok_polled (map_event f e) (map (map_event f) post) = ok_polled e post.
Proof.
  destruct e as [| | | | | |j [s|]| | |]; try reflexivity.
  apply existsb_map. intros x. apply polls_map.
Qed.

Lemma ok_analysis_map seen e :
  ok_analysis (map (map_event f) seen) (map_event f e) = ok_analysis seen e.
Proof.
  destruct e as [| | | | | |j [s|]| | |]; try reflexivity; simpl.
  - apply existsb_map. intros x. apply observes_completed_map.
  - apply forallb_eq. intros j.
    apply existsb_map. intros x. apply observes_completed_map.
Qed.

Lemma ok_no_resubmission_map seen e :
  ok_no_resubmission (map (map_event f) seen) (map_event f e)
  = ok_no_resubmission seen e.
Proof.
  destruct e as [| | | | | |j [s|]| | |]; try reflexivity; simpl.
  f_equal. apply existsb_map. intros x. apply submits_map.
Qed.

Lemma ok_failure_map e post :
  ok_failure (map_event f e) (map (map_event f) post) = ok_failure e post.
Proof.
  destruct e as [| | | | |j [|]|j [s|]| | |]; try reflexivity; simpl.
  f_equal. apply existsb_map. intros x. apply acts_on_map.
Qed.

Lemma ok_all_map seen e post :
  ok_all (map (map_event f) seen) (map_event f e) (map (map_event f) post)
  = ok_all seen e post.
Proof.
  unfold ok_all.
  now rewrite ok_constructed_map, ok_polled_map, ok_analysis_map,
    ok_no_resubmission_map, ok_failure_map.
Qed.

Lemma scan_map tr : forall seen,
  scan ok_all (map (map_event f) seen) (map (map_event f) tr)
  = scan ok_all seen tr.
Proof.
  induction tr as [|e tr IH]; intros seen; simpl; [reflexivity|].
  rewrite ok_all_map. f_equal. apply (IH (e :: seen)).
Qed.
End Renaming.

Lemma normal_completed s : is_completed (normal s) = is_completed s.
Proof. unfold normal. destruct (is_completed s) eqn:E; reflexivity. Qed.

(** Every run of an explored notebook passes the checks. *)
Lemma explored nb :
  explore ok_all nb (steps_bound nb) [] [] = true ->
  forall v, scan ok_all [] (trace v nb) = true.
Proof.
  intros H v.
  rewrite <- (scan_map normal normal_completed (trace v nb) []).
  rewrite <- (trace_map normal normal_completed).
  apply (explore_sound _ _ _ _ _ H).
  - intros k. simpl. unfold normal. destruct (is_completed _); auto.
  - split; intros n Hn; simpl in Hn; lia.
Qed.


(** *** From the checks to the properties *)

Lemma scan_sound ok tr : forall seen,
  scan ok seen tr = true ->
  forall pre e post, tr = pre ++ e :: post ->
    ok (rev pre ++ seen) e post = true.
Proof.
  induction tr as [|x tr IH]; intros seen H pre e post E.
  - destruct pre; discriminate.
  - simpl in H. apply andb_prop in H. destruct H as [H1 H2].
    destruct pre as [|p pre]; simpl in E; injection E as -> ->.
    + exact H1.
    + simpl. rewrite <- app_assoc. simpl. now apply (IH (p :: seen)).
Qed.

Lemma ok_all_at tr pre e post :
  scan ok_all [] tr = true -> tr = pre ++ e :: post ->
  ok_constructed (rev pre) e = true /\
  ok_polled e post = true /\
  ok_analysis (rev pre) e = true /\
  ok_no_resubmission (rev pre) e = true /\
  ok_failure e post = true.
Proof.
  intros H E. pose proof (scan_sound _ _ _ H _ _ _ E) as K.
  rewrite app_nil_r in K. unfold ok_all in K.
  repeat (apply andb_prop in K; destruct K as [K ?]). auto.
Qed.

Lemma all_constructed_In pre os o :
  all_constructed (rev pre) os = true -> In o os ->
  exists e', In e' pre /\ constructs o e' = true.
Proof.
  unfold all_constructed. rewrite forallb_forall. intros H Ho.
  apply H in Ho. apply existsb_exists in Ho. destruct Ho as [e' [Hin Hc]].
  exists e'. split; [now apply in_rev|exact Hc].
Qed.

Lemma observed_completed_In pre j :
  existsb (observes_completed j) (rev pre) = true ->
  In (EDescribe j (Some "Completed")) pre.
Proof.
  intros H. apply existsb_exists in H. destruct H as [e' [Hin Hc]].
  apply in_rev in Hin.
  destruct e' as [| | | | | |j' [s|]| | |]; try discriminate.
  simpl in Hc. apply andb_prop in Hc. destruct Hc as [Hj Hs].
  apply Nat.eqb_eq in Hj. apply String.eqb_eq in Hs. now subst.
Qed.

Lemma scan_constructed tr :
  scan ok_all [] tr = true -> constructed_before_use tr.
Proof.
  intros H pre e post E.
  destruct (ok_all_at _ _ _ _ H E) as [K _].
  destruct e; try exact I; unfold ok_constructed in K; intros o Ho;
    eapply all_constructed_In; eauto.
Qed.

Lemma scan_polled tr : scan ok_all [] tr = true -> submissions_polled tr.
Proof.
  intros H pre r j us post E.
  destruct (ok_all_at _ _ _ _ H E) as [_ [K _]].
  simpl in K. now apply existsb_exists in K.
Qed.

Lemma scan_analysis tr :
  scan ok_all [] tr = true -> analysis_after_completed tr.
Proof.
  intros H pre e post E.
  destruct (ok_all_at _ _ _ _ H E) as [_ [_ [K _]]].
  destruct e; try exact I; simpl in K.
  - now apply observed_completed_In.
  - intros j Hj. rewrite forallb_forall in K.
    now apply observed_completed_In, K.
Qed.

Lemma scan_no_resubmission tr :
  scan ok_all [] tr = true -> no_resubmission tr.
Proof.
  intros H pre r j us post E j' us' Hin.
  destruct (ok_all_at _ _ _ _ H E) as [_ [_ [_ [K _]]]].
  simpl in K. apply negb_true_iff in K.
  assert (X : existsb (submits r) (rev pre) = true).
  { apply existsb_exists. exists (ESubmit r j' us'). split.
    - now apply in_rev in Hin.
    - simpl. apply String.eqb_refl. }
  congruence.
Qed.

Lemma scan_failure tr :
  scan ok_all [] tr = true -> failure_only_observed tr.
Proof.
  intros H pre j post E e Hin.
  destruct (ok_all_at _ _ _ _ H E) as [_ [_ [_ [_ K]]]].
  simpl in K. apply negb_true_iff in K.
  destruct (acts_on j e) eqn:A; [|reflexivity].
  assert (X : existsb (acts_on j) post = true)
    by (apply existsb_exists; eauto).
  congruence.
Qed.

(** The three notebooks have been explored. *)
Lemma notebooks_explored nb :
  In nb notebooks -> explore ok_all nb (steps_bound nb) [] [] = true.
Proof.
  intros [<-|[<-|[<-|[]]]]; vm_compute; reflexivity.
Qed.

Lemma notebooks_checked nb v :
  In nb notebooks -> scan ok_all [] (trace v nb) = true.
Proof. intros H. now apply explored, notebooks_explored. Qed.

(** When the service reports both tuning jobs "Completed", the run reads
    the analytics of both and draws the figure. *)
Example tuning_run_completed :
  skipn 33 (trace all_completed Tuning.notebook) =
  [ EDescribe 0 (Some "Completed"); EDescribe 1 (Some "Completed");
    EAnalytics 0 true; EAnalytics 1 true; EPlot [0; 1]%nat;
    EService "predictor" ["tuner_linear"] true;
    EService "delete_endpoint" ["sess"; "predictor"] true ].
Proof. vm_compute. reflexivity. Qed.

(** When it does not, the first assertion stops the cell: no analytics
    are read, and the next cell finds no [df] to plot. *)
Example tuning_run_not_completed :
  skipn 33 (trace Tuning.never_completed Tuning.notebook) =
  [ EDescribe 0 (Some "Failed"); EDescribe 1 (Some "Failed");
    ERaise AssertionError; ERaise NameError;
    EService "predictor" ["tuner_linear"] true;
    EService "delete_endpoint" ["sess"; "predictor"] true ].
Proof. vm_compute. reflexivity. Qed.

(** C7. In every run of each notebook, whatever the service answers:
    every object a job submission (or a constructor) consumes was built
    before it; every submitted job is later waited for or asked about; and
    the analytics of a tuning job are read, and plotted, only after the
    service has reported that job "Completed" (the two assertions of the
    tuning notebook stop the cell otherwise). *)
Theorem notebooks_construct_submit_poll_analyze
    (nb : notebook) (v : vendor) :
  In nb notebooks ->
  constructed_before_use (trace v nb) /\
  submissions_polled (trace v nb) /\
  analysis_after_completed (trace v nb).
Proof.
  intros H. pose proof (notebooks_checked nb v H) as K.
  split; [|split].
  - now apply scan_constructed.
  - now apply scan_polled.
  - now apply scan_analysis.
Qed.

Lemma notebooks_construct_submit_poll_analyze_witness :
  In Tuning.notebook notebooks /\
  constructed_before_use (trace all_completed Tuning.notebook) /\
  submissions_polled (trace all_completed Tuning.notebook) /\
  analysis_after_completed (trace all_completed Tuning.notebook).
Proof.
  assert (H : In Tuning.notebook notebooks)
    by (right; right; left; reflexivity).
  split; [exact H|].
  exact (notebooks_construct_submit_poll_analyze
           Tuning.notebook all_completed H).
Defined.

(** C8. In every run of each notebook, whatever the service answers, no
    pipeline or tuner is started a second time, and once a wait on an
    execution has raised, that execution is not acted upon again: it is
    only asked about.  When the wait on the inference pipeline execution
    raises, the run ends with the exception, [execution.describe()] and the
    bucket listing. *)
Theorem notebooks_no_retry_no_recovery (nb : notebook) (v : vendor) :
  In nb notebooks ->
  no_resubmission (trace v nb) /\
  failure_only_observed (trace v nb) /\
  exists pre,
    trace Scheduling.inference_fails Scheduling.notebook =
    pre ++ [ ESubmit "sklearn-scheduled-inference" 1
               ["scheduled-pipeline-sklearn-createmodel"; "x_test_path"];
             EWait 1 false; ERaise VendorError;
             EDescribe 1 (Some "Failed");
             EShell "aws s3 ls s3://$bucket/$prefix/output/" ].
Proof.
  intros H. pose proof (notebooks_checked nb v H) as K.
  split; [|split].
  - now apply scan_no_resubmission.
  - now apply scan_failure.
  - exists (firstn 49 (trace Scheduling.inference_fails Scheduling.notebook)).
    vm_compute. reflexivity.
Qed.

Lemma notebooks_no_retry_no_recovery_witness :
  In Scheduling.notebook notebooks /\
  no_resubmission (trace Scheduling.inference_fails Scheduling.notebook) /\
  failure_only_observed
    (trace Scheduling.inference_fails Scheduling.notebook).
Proof.
  assert (H : In Scheduling.notebook notebooks)
    by (right; left; reflexivity).
  split; [exact H|].
  pose proof (notebooks_no_retry_no_recovery
                Scheduling.notebook Scheduling.inference_fails H)
    as [A [B _]].
  split; [exact A|exact B].
Defined.

End NotebookFacts.

(** ** The pipelines of the scheduling notebook *)

Module SchedulingFacts.
Import Scheduling.

(** C3, as stated, fails: not every pipeline has exactly two steps. *)
Lemma pipelines_not_all_two_steps :
  ~ (forall p, In p pipelines -> length (steps p) = 2%nat).
Proof.
  intros H. specialize (H training_pipeline (or_introl eq_refl)).
  discriminate H.
Qed.

(** C3, amended.  The notebook builds two pipelines: the steps list of
    the training pipeline "sklearn-scheduled-training" has length exactly
    three, that of the inference pipeline "sklearn-scheduled-inference"
    length exactly one. *)
Theorem pipelines_step_counts :
  map name pipelines =
    ["sklearn-scheduled-training"; "sklearn-scheduled-inference"] /\
  length (steps training_pipeline) = 3%nat /\
  length (steps inference_pipeline) = 1%nat.
Proof. repeat split. Qed.

(** C4. The training pipeline's steps are the processing step, the
    training step and the model-creation step, in this order; the
    inference pipeline's only step is the transform step; and every step
    of every pipeline is of one of these four kinds. *)
Theorem pipelines_step_kinds :
  steps training_pipeline = [step_process; step_train; step_create_model] /\
  map kind_of (steps training_pipeline) =
    [Some processing; Some training; Some model_creation] /\
  steps inference_pipeline = [transformer_step] /\
  map kind_of (steps inference_pipeline) = [Some transform] /\
  Forall (fun p => Forall (fun s => kind_of s <> None) (steps p)) pipelines.
Proof.
  repeat split.
  repeat (constructor; try discriminate).
Qed.

End SchedulingFacts.

(** ** The tuners of the tuning notebook *)

Module TuningFacts.
Import Tuning.

(** C5, as stated, fails: the two tuners have the same strategy. *)
Lemma tuners_same_strategy :
  ~ (strategy tuner_log <> strategy tuner_linear).
Proof. intros H. apply H. reflexivity. Qed.

(** C5, amended.  Both tuning jobs use the search strategy "Random";
    what differs between them is the scaling type of the ranges:
    "Logarithmic" for [tuner_log], "Linear" for [tuner_linear]. *)
Theorem tuners_differ_in_scaling :
  strategy tuner_log = "Random" /\
  strategy tuner_linear = "Random" /\
  Forall (fun kv => bounds_only (1 # 100) 10 "Logarithmic" (snd kv))
    (hyperparameter_ranges tuner_log) /\
  Forall (fun kv => bounds_only (1 # 100) 10 "Linear" (snd kv))
    (hyperparameter_ranges tuner_linear) /\
  hyperparameter_ranges tuner_log <> hyperparameter_ranges tuner_linear.
Proof.
  repeat split; try (repeat constructor); discriminate.
Qed.

(** C6. Every tuner is configured with the strategy "Random" or
    "Bayesian", and its ranges, one for alpha and one for lambda, hold
    the bounds 0.01 and 10 and a scaling type, and nothing else: no
    range lists candidate values. *)
Theorem tuners_vendor_side_search :
  Forall
    (fun t =>
       (strategy t = "Random" \/ strategy t = "Bayesian") /\
       map fst (hyperparameter_ranges t) = ["alpha"; "lambda"] /\
       Forall (fun kv => exists scaling,
                   bounds_only (1 # 100) 10 scaling (snd kv))
         (hyperparameter_ranges t))
    tuners.
Proof.
  repeat constructor; eexists; reflexivity.
Qed.

End TuningFacts.

(** ** Floats *)

Module Float64Facts.
Import Py Float64.
Local Open Scope Z_scope.

(** *** Bit lengths *)

Lemma digits2_pos_bounds p :
  2 ^ (Zpos (digits2_pos p) - 1) <= Zpos p < 2 ^ Zpos (digits2_pos p).
Proof.
  induction p as [p IH|p IH|]; simpl digits2_pos.
  - rewrite Pos2Z.inj_succ.
    replace (Z.succ (Zpos (digits2_pos p)) - 1)
      with (Z.succ (Zpos (digits2_pos p) - 1)) by lia.
    rewrite !Z.pow_succ_r by lia. lia.
  - rewrite Pos2Z.inj_succ.
    replace (Z.succ (Zpos (digits2_pos p)) - 1)
      with (Z.succ (Zpos (digits2_pos p) - 1)) by lia.
    rewrite !Z.pow_succ_r by lia. lia.
  - simpl. lia.
Qed.

Lemma digits2_pos_unique p d :
  2 ^ (d - 1) <= Zpos p < 2 ^ d -> Zpos (digits2_pos p) = d.
Proof.
  intros [L U]. pose proof (digits2_pos_bounds p) as [L' U'].
  assert (0 < d).
  { destruct (Z.lt_trichotomy d 0) as [N|[->|N]]; [|simpl in U; lia|exact N].
    rewrite (Z.pow_neg_r 2 d) in U by lia. lia. }
  assert (Zpos (digits2_pos p) - 1 < d).
  { apply (Z.pow_lt_mono_r_iff 2); lia. }
  assert (d - 1 < Zpos (digits2_pos p)).
  { apply (Z.pow_lt_mono_r_iff 2); lia. }
  lia.
Qed.

Lemma iter_xO m k : Zpos (Pos.iter xO m k) = Zpos m * 2 ^ Zpos k.
Proof.
  induction k as [|k IH] using Pos.peano_ind.
  - simpl. lia.
  - rewrite Pos.iter_succ, Pos2Z.inj_succ, Z.pow_succ_r by lia.
    rewrite (Pos2Z.inj_xO (Pos.iter xO m k)), IH. lia.
Qed.

(** *** Shifting right *)

Lemma shr_1_nonneg m r s :
  0 <= m ->
  shr_1 (Build_shr_record m r s) =
  Build_shr_record (m / 2) (Z.odd m) (r || s).
Proof.
  intros H. destruct m as [|[p|p|]|]; try lia; cbn [shr_1]; f_equal.
  - rewrite (Pos2Z.inj_xI p). apply Z.div_unique with 1; lia.
  - rewrite (Pos2Z.inj_xO p). apply Z.div_unique with 0; lia.
Qed.

Lemma shr_m_iter p : forall m r s,
  0 <= m ->
  shr_m (iter_pos shr_1 p (Build_shr_record m r s)) = m / 2 ^ Zpos p.
Proof.
  induction p as [p IH|p IH|]; intros m r s H; cbn [iter_pos].
  - rewrite shr_1_nonneg by exact H.
    destruct (iter_pos shr_1 p (Build_shr_record (m / 2) (Z.odd m) (r || s)))
      as [m1 r1 s1] eqn:E1.
    assert (M1 : m1 = m / 2 / 2 ^ Zpos p).
    { change m1 with (shr_m (Build_shr_record m1 r1 s1)). rewrite <- E1.
      apply IH. apply Z.div_pos; lia. }
    rewrite IH by (subst m1; apply Z.div_pos; [apply Z.div_pos|]; lia).
    subst m1. rewrite (Pos2Z.inj_xI p).
    rewrite !Z.div_div by lia.
    f_equal. replace (2 * Zpos p + 1) with (1 + Zpos p + Zpos p) by lia.
    rewrite !Z.pow_add_r by lia. lia.
  - destruct (iter_pos shr_1 p (Build_shr_record m r s))
      as [m1 r1 s1] eqn:E1.
    assert (M1 : m1 = m / 2 ^ Zpos p).
    { change m1 with (shr_m (Build_shr_record m1 r1 s1)). rewrite <- E1.
      now apply IH. }
    rewrite IH by (subst m1; apply Z.div_pos; lia).
    subst m1. rewrite (Pos2Z.inj_xO p), Z.div_div by lia.
    f_equal. replace (2 * Zpos p) with (Zpos p + Zpos p) by lia.
    rewrite Z.pow_add_r by lia. lia.
  - rewrite shr_1_nonneg by exact H. reflexivity.
Qed.

(** A shift that drops only zero bits is exact. *)
Lemma shr_exact_iter p : forall m,
  0 <= m -> (2 ^ Zpos p | m) ->
  iter_pos shr_1 p (Build_shr_record m false false) =
  Build_shr_record (m / 2 ^ Zpos p) false false.
Proof.
  induction p as [p IH|p IH|]; intros m H [q Hq]; cbn [iter_pos].
  - rewrite shr_1_nonneg by exact H.
    assert (E : m = 2 * (2 ^ Zpos p * (2 ^ Zpos p * q))).
    { rewrite Hq, (Pos2Z.inj_xI p).
      replace (2 * Zpos p + 1) with (1 + Zpos p + Zpos p) by lia.
      rewrite !Z.pow_add_r by lia. lia. }
    assert (O : Z.odd m = false).
    { rewrite E. rewrite Z.odd_mul. reflexivity. }
    rewrite O. simpl orb.
    assert (m / 2 = 2 ^ Zpos p * (2 ^ Zpos p * q)).
    { rewrite E at 1. rewrite Z.mul_comm, Z.div_mul by lia. reflexivity. }
    rewrite IH; [|lia|exists (2 ^ Zpos p * q); lia].
    rewrite IH; [| apply Z.div_pos; lia |].
    + f_equal. rewrite !Z.div_div by lia. f_equal.
      rewrite (Pos2Z.inj_xI p).
      replace (2 * Zpos p + 1) with (1 + Zpos p + Zpos p) by lia.
      rewrite !Z.pow_add_r by lia. lia.
    + exists q. rewrite H0.
      rewrite (Z.mul_comm (2 ^ Zpos p)), Z.div_mul by lia. lia.
  - assert (E : m = 2 ^ Zpos p * (2 ^ Zpos p * q)).
    { rewrite Hq, (Pos2Z.inj_xO p).
      replace (2 * Zpos p) with (Zpos p + Zpos p) by lia.
      rewrite !Z.pow_add_r by lia. lia. }
    rewrite IH; [|lia|exists (2 ^ Zpos p * q); lia].
    rewrite IH; [| apply Z.div_pos; lia |].
    + f_equal. rewrite !Z.div_div by lia. f_equal.
      rewrite (Pos2Z.inj_xO p).
      replace (2 * Zpos p) with (Zpos p + Zpos p) by lia.
      rewrite !Z.pow_add_r by lia. lia.
    + exists q. rewrite E at 1.
      rewrite (Z.mul_comm (2 ^ Zpos p)), Z.div_mul by lia. lia.
  - rewrite shr_1_nonneg by exact H.
    assert (O : Z.odd m = false).
    { rewrite Hq. rewrite Z.odd_mul. simpl. apply andb_false_r. }
    rewrite O. reflexivity.
Qed.


(** *** Rounding a long significand *)

Lemma fexp_normal x :
  -1021 <= x -> fexp prec emax x = x - 53.
Proof. unfold fexp, SpecFloat.emin, prec, emax. lia. Qed.

Lemma round_nearest_even_near m l :
  m <= round_nearest_even m l <= m + 1.
Proof.
  destruct l as [|[| |]]; simpl; try lia. destruct (Z.even m); lia.
Qed.

(** The significand [P] of [d > 53] bits, with exponent [e], rounds to a
    float that is [M * 2^(e + d - 53)], where [M] is [P / 2^(d-53)] or
    the next integer, and the former when the division is exact. *)
Lemma binary_round_aux_long (P : positive) (e : Z) :
  let d := Zpos (digits2_pos P) in
  53 < d -> -1021 <= d + e -> d + e <= 1023 ->
  exists m2 e2 M,
    binary_round_aux prec emax false (Zpos P) e loc_Exact
      = S754_finite false m2 e2 /\
    Z.shiftl (Zpos m2) e2 = Z.shiftl M (e + (d - 53)) /\
    Zpos P / 2 ^ (d - 53) <= M <= Zpos P / 2 ^ (d - 53) + 1 /\
    ((2 ^ (d - 53) | Zpos P) -> M = Zpos P / 2 ^ (d - 53)).
Proof.
  intros d Hd Hlo Hhi.
  pose proof (digits2_pos_bounds P) as [PL PU]. fold d in PL, PU.
  unfold binary_round_aux, shr_fexp.
  cbn [Zdigits2 shr_record_of_loc]. fold d.
  rewrite (fexp_normal (d + e)) by lia.
  replace (d + e - 53 - e) with (d - 53) by lia.
  destruct (d - 53) as [|sp|sp] eqn:Es; try lia.
  cbn [shr].
  destruct (iter_pos shr_1 sp (Build_shr_record (Zpos P) false false))
    as [m1 r1 s1] eqn:E1.
  assert (M1 : m1 = Zpos P / 2 ^ Zpos sp).
  { change m1 with (shr_m (Build_shr_record m1 r1 s1)). rewrite <- E1.
    apply shr_m_iter. lia. }
  cbn [shr_m].
  set (M := round_nearest_even m1
              (loc_of_shr_record (Build_shr_record m1 r1 s1))).
  assert (MB : m1 <= M <= m1 + 1) by apply round_nearest_even_near.
  assert (ME : (2 ^ Zpos sp | Zpos P) -> M = m1).
  { intros D. rewrite shr_exact_iter in E1 by (lia || exact D).
    injection E1 as <- <- <-. reflexivity. }
  assert (Hpow : 2 ^ (d - 1) = 2 ^ 52 * 2 ^ Zpos sp).
  { rewrite <- Z.pow_add_r by lia. f_equal. lia. }
  assert (Hpow' : 2 ^ d = 2 ^ 53 * 2 ^ Zpos sp).
  { rewrite <- Z.pow_add_r by lia. f_equal. lia. }
  assert (B1 : 2 ^ 52 <= m1 < 2 ^ 53).
  { subst m1. split.
    - apply Z.div_le_lower_bound; lia.
    - apply Z.div_lt_upper_bound; lia. }
  clearbody M. rewrite M1 in MB, ME, B1.
  destruct M as [|Mp|Mp]; try lia.
  cbn [Zdigits2].
  destruct (Z.eq_dec (Zpos Mp) (2 ^ 53)) as [Ec|Ec].
  - (* the rounding carried into a 54th bit *)
    assert (D54 : Zpos (digits2_pos Mp) = 54).
    { apply digits2_pos_unique. rewrite Ec.
      change (54 - 1) with 53. split; [lia|].
      change 54 with (Z.succ 53). rewrite Z.pow_succ_r; lia. }
    rewrite D54, (fexp_normal (54 + (e + Zpos sp))) by lia.
    replace (54 + (e + Zpos sp) - 53 - (e + Zpos sp)) with 1 by lia.
    cbn [shr iter_pos].
    rewrite shr_1_nonneg by lia. cbn [shr_m].
    assert (Half : Zpos Mp / 2 = 2 ^ 52).
    { rewrite Ec. change 53 with (Z.succ 52).
      rewrite Z.pow_succ_r, Z.mul_comm, Z.div_mul; lia. }
    rewrite Half.
    destruct (2 ^ 52) as [|hp|hp] eqn:E52; try (pose proof (Z.pow_pos_nonneg 2 52); lia).
    replace (e + Zpos sp + 1 <=? emax - prec) with true
      by (symmetry; apply Z.leb_le; unfold emax, prec; lia).
    exists hp, (e + Zpos sp + 1), (Zpos Mp).
    split; [reflexivity|]. split; [|split; [lia|exact ME]].
    assert (X : Zpos Mp = Z.shiftl (Zpos hp) 1).
    { rewrite Z.shiftl_mul_pow2, Z.pow_1_r, Ec by lia.
      change 53 with (Z.succ 52). rewrite Z.pow_succ_r, E52; lia. }
    rewrite X, Z.shiftl_shiftl by lia. f_equal. lia.
  - assert (D53 : Zpos (digits2_pos Mp) = 53).
    { apply digits2_pos_unique. change (53 - 1) with 52. lia. }
    rewrite D53, (fexp_normal (53 + (e + Zpos sp))) by lia.
    replace (53 + (e + Zpos sp) - 53 - (e + Zpos sp)) with 0 by lia.
    cbn [shr shr_m].
    replace (e + Zpos sp <=? emax - prec) with true
      by (symmetry; apply Z.leb_le; unfold emax, prec; lia).
    exists Mp, (e + Zpos sp), (Zpos Mp).
    split; [reflexivity|]. split; [reflexivity|]. split; [lia|exact ME].
Qed.


(** A significand of exactly 53 bits needs no rounding. *)
Lemma binary_round_aux_53 (m : positive) (e : Z) :
  Zpos (digits2_pos m) = 53 -> -1074 <= e <= 971 ->
  binary_round_aux prec emax false (Zpos m) e loc_Exact
    = S754_finite false m e.
Proof.
  intros D He.
  unfold binary_round_aux, shr_fexp.
  cbn [Zdigits2 shr_record_of_loc]. rewrite D.
  rewrite (fexp_normal (53 + e)) by lia.
  replace (53 + e - 53 - e) with 0 by lia.
  cbn [shr shr_m loc_of_shr_record round_nearest_even Zdigits2].
  rewrite D, (fexp_normal (53 + e)) by lia.
  replace (53 + e - 53 - e) with 0 by lia.
  cbn [shr shr_m].
  replace (e <=? emax - prec) with true
    by (symmetry; apply Z.leb_le; unfold emax, prec; lia).
  reflexivity.
Qed.

(** [float(n)] is exact for [0 < n < 2^53]. *)
Lemma of_int_exact n :
  0 < n < 2 ^ 53 ->
  exists mn en,
    of_int n = Ok (S754_finite false mn en) /\
    Zpos (digits2_pos mn) = 53 /\
    -52 <= en <= 0 /\
    Zpos mn = n * 2 ^ (- en).
Proof.
  intros [Hn0 Hn]. destruct n as [|p|p]; try lia.
  pose proof (digits2_pos_bounds p) as [PL PU].
  assert (D : 1 <= Zpos (digits2_pos p) <= 53).
  { split; [lia|].
    destruct (Z_le_gt_dec (Zpos (digits2_pos p)) 53) as [L|G]; [exact L|].
    assert (2 ^ 53 <= 2 ^ (Zpos (digits2_pos p) - 1))
      by (apply Z.pow_le_mono_r; lia).
    lia. }
  unfold of_int, binary_normalize, binary_round.
  rewrite (fexp_normal (Zpos (digits2_pos p) + 0)) by lia.
  unfold shl_align.
  replace (Zpos (digits2_pos p) + 0 - 53 - 0)
    with (Zpos (digits2_pos p) - 53) by lia.
  destruct (Zpos (digits2_pos p) - 53) as [|k|k] eqn:Ek; try lia.
  - rewrite binary_round_aux_53 by lia.
    exists p, 0. repeat split; try lia.
  - assert (D53 : Zpos (digits2_pos (Pos.iter xO p k)) = 53).
    { apply digits2_pos_unique. rewrite iter_xO.
      change (53 - 1) with 52.
      assert (A : 2 ^ 52 = 2 ^ (Zpos (digits2_pos p) - 1) * 2 ^ Zpos k).
      { rewrite <- Z.pow_add_r by lia. f_equal. lia. }
      assert (B : 2 ^ 53 = 2 ^ Zpos (digits2_pos p) * 2 ^ Zpos k).
      { rewrite <- Z.pow_add_r by lia. f_equal. lia. }
      assert (0 < 2 ^ Zpos k) by (apply Z.pow_pos_nonneg; lia).
      rewrite A, B.
      split; [apply Z.mul_le_mono_nonneg_r|apply Z.mul_lt_mono_pos_r]; lia. }
    replace (Zpos (digits2_pos p) + 0 - 53) with (Zneg k) by lia.
    rewrite binary_round_aux_53 by lia.
    exists (Pos.iter xO p k), (Zneg k). repeat split; try lia.
    rewrite iter_xO. reflexivity.
Qed.

(** [int(c * n)] for a float [c = mc / 2^53] in [[1/2, 1)] and
    [0 < n < 2^53] lies between the floor and the ceiling of the exact
    product. *)
Lemma int_of_scaled_bounds (mc : positive) (n : Z) :
  Zpos (digits2_pos mc) = 53 -> 0 < n < 2 ^ 53 ->
  exists t,
    int_of_scaled (S754_finite false mc (-53)) n = Ok t /\
    (forall k, k * 2 ^ 53 <= Zpos mc * n -> k <= t) /\
    (forall k, Zpos mc * n <= k * 2 ^ 53 -> t <= k).
Proof.
  intros Dc Hn.
  destruct (of_int_exact n Hn) as [mn [en [E [Dn [Hen Hmn]]]]].
  unfold int_of_scaled. rewrite E. unfold mul, SFmul. cbn [xorb].
  pose proof (digits2_pos_bounds mc) as [CL CU]. rewrite Dc in CL, CU.
  pose proof (digits2_pos_bounds mn) as [NL NU]. rewrite Dn in NL, NU.
  change (53 - 1) with 52 in CL, NL.
  set (P := (mc * mn)%positive).
  assert (HP : Zpos P = Zpos mc * Zpos mn) by reflexivity.
  assert (P104 : 2 ^ 104 <= Zpos P).
  { rewrite HP. change 104 with (52 + 52). rewrite Z.pow_add_r by lia.
    apply Z.mul_le_mono_nonneg; lia. }
  assert (P106 : Zpos P < 2 ^ 106).
  { rewrite HP. change 106 with (53 + 53). rewrite Z.pow_add_r by lia.
    apply Z.mul_lt_mono_nonneg; lia. }
  pose proof (digits2_pos_bounds P) as [PL PU].
  set (d := Zpos (digits2_pos P)) in *.
  assert (Hd : 105 <= d <= 106).
  { split.
    - destruct (Z_lt_ge_dec 104 d) as [L|G]; [lia|].
      assert (2 ^ d <= 2 ^ 104) by (apply Z.pow_le_mono_r; lia). lia.
    - destruct (Z_le_gt_dec d 106) as [L|G]; [lia|].
      assert (2 ^ 106 <= 2 ^ (d - 1)) by (apply Z.pow_le_mono_r; lia). lia. }
  destruct (binary_round_aux_long P (-53 + en)) as [m2 [e2 [M [R [Sh [MB ME]]]]]];
    fold d; try lia.
  rewrite R. cbn [to_int cond_Zopp]. eexists. split; [reflexivity|].
  fold d in Sh, MB, ME. rewrite Sh.
  set (w := 53 - en - (d - 53)).
  assert (Hw : 0 <= w) by (unfold w; lia).
  replace (-53 + en + (d - 53)) with (- w) by (unfold w; lia).
  rewrite <- Z.shiftr_opp_r, Z.opp_involutive, Z.shiftr_div_pow2 by lia.
  assert (W : 0 < 2 ^ w) by (apply Z.pow_pos_nonneg; lia).
  assert (S : 0 < 2 ^ (d - 53)) by (apply Z.pow_pos_nonneg; lia).
  assert (N : 0 < 2 ^ (- en)) by (apply Z.pow_pos_nonneg; lia).
  assert (U : 2 ^ 53 * 2 ^ (- en) = 2 ^ w * 2 ^ (d - 53)).
  { rewrite <- !Z.pow_add_r by lia. f_equal. unfold w. lia. }
  assert (PQ : Zpos P = Zpos mc * n * 2 ^ (- en)) by (rewrite HP, Hmn; ring).
  pose proof (Z.div_mod (Zpos P) (2 ^ (d - 53)) ltac:(lia)) as DM.
  pose proof (Z.mod_pos_bound (Zpos P) (2 ^ (d - 53)) S) as MBd.
  set (q := Zpos P / 2 ^ (d - 53)) in *.
  set (r := Zpos P mod 2 ^ (d - 53)) in *.
  clearbody q r w.
  split; intros k Hk.
  - apply Z.div_le_lower_bound; [exact W|].
    assert (2 ^ w * k * 2 ^ (d - 53) <= Zpos P).
    { replace (2 ^ w * k * 2 ^ (d - 53)) with (k * (2 ^ w * 2 ^ (d - 53))) by ring.
      rewrite <- U, PQ.
      replace (k * (2 ^ 53 * 2 ^ (- en))) with (k * 2 ^ 53 * 2 ^ (- en)) by ring.
      apply Z.mul_le_mono_nonneg_r; lia. }
    assert (2 ^ w * k <= q); [|lia].
    generalize dependent (2 ^ w * k). intros b Hb.
    generalize dependent (2 ^ (d - 53)). intros a; intros.
    assert (b * a <= a * q + r) by (rewrite <- DM; lia).
    nia.
  - apply Z.div_le_upper_bound; [exact W|].
    assert (HPk : Zpos P <= (2 ^ w * k) * 2 ^ (d - 53)).
    { replace (2 ^ w * k * 2 ^ (d - 53)) with (k * (2 ^ w * 2 ^ (d - 53))) by ring.
      rewrite <- U, PQ.
      replace (k * (2 ^ 53 * 2 ^ (- en))) with (k * 2 ^ 53 * 2 ^ (- en)) by ring.
      apply Z.mul_le_mono_nonneg_r; lia. }
    generalize dependent (2 ^ w * k). intros b Hb.
    generalize dependent (2 ^ (d - 53)). intros a; intros.
    assert (Hq : q <= b) by nia.
    destruct (Z.eq_dec q b) as [Eq|Nq]; [|lia].
    assert (r = 0) by nia.
    rewrite ME; [lia|].
    exists q. lia.
Qed.


Lemma literal_0_7 :
  literal 7 10 = S754_finite false 6305039478318694 (-53).
Proof. vm_compute. reflexivity. Qed.

Lemma literal_0_9 :
  literal 9 10 = S754_finite false 8106479329266893 (-53).
Proof. vm_compute. reflexivity. Qed.

Example int_of_scaled_examples :
  map (int_of_scaled (literal 7 10)) [0; 3; 10; 90; 41188; -3]
    = [Ok 0; Ok 2; Ok 7; Ok 62; Ok 28831; Ok (-2)] /\
  map (int_of_scaled (literal 9 10)) [0; 3; 10; 90; 41188; -3]
    = [Ok 0; Ok 2; Ok 9; Ok 81; Ok 37069; Ok (-2)].
Proof. split; vm_compute; reflexivity. Qed.

(** The two split points: [0 <= int(0.7 * n) <= int(0.9 * n) <= n]. *)
Lemma split_points n :
  0 <= n < 2 ^ 53 ->
  exists i1 i2,
    int_of_scaled (literal 7 10) n = Ok i1 /\
    int_of_scaled (literal 9 10) n = Ok i2 /\
    0 <= i1 <= i2 /\ i2 <= n.
Proof.
  intros Hn.
  destruct (Z_lt_ge_dec n 5) as [Small|Big].
  - assert (C : n = 0 \/ n = 1 \/ n = 2 \/ n = 3 \/ n = 4) by lia.
    destruct C as [->|[->|[->|[->| ->]]]];
      vm_compute; do 2 eexists; repeat split; discriminate.
  - rewrite literal_0_7, literal_0_9.
    destruct (int_of_scaled_bounds 6305039478318694 n) as [i1 [E1 [L1 U1]]];
      [reflexivity|lia|].
    destruct (int_of_scaled_bounds 8106479329266893 n) as [i2 [E2 [L2 U2]]];
      [reflexivity|lia|].
    exists i1, i2. split; [exact E1|]. split; [exact E2|].
    assert (P53 : 2 ^ 53 = 9007199254740992) by reflexivity.
    rewrite P53 in *.
    split; [split|].
    + apply L1. lia.
    + set (k := (6305039478318694 * n + 9007199254740991) / 9007199254740992).
      pose proof (Z.div_mod (6305039478318694 * n + 9007199254740991)
                    9007199254740992 ltac:(lia)) as DM.
      pose proof (Z.mod_pos_bound (6305039478318694 * n + 9007199254740991)
                    9007199254740992 ltac:(lia)) as MB.
      fold k in DM.
      apply Z.le_trans with k; [apply U1|apply L2]; lia.
    + apply U2. lia.
Qed.

End Float64Facts.

(** ** The three-way split of the tuning notebook *)

Module NumpyFacts.
Import Numpy.

(** Slices clamp their bounds; a later index before an earlier one gives
    an empty part and overlapping neighbours. *)
Example split_examples :
  split [1; 2; 3; 4; 5; 6]%nat [2; 4]%Z = [[1; 2]; [3; 4]; [5; 6]]%nat /\
  split [1; 2; 3; 4; 5; 6]%nat [4; 2]%Z = [[1; 2; 3; 4]; []; [3; 4; 5; 6]]%nat /\
  split [1; 2; 3; 4; 5; 6]%nat [-2; 20]%Z = [[1; 2; 3; 4]; [5; 6]; []]%nat.
Proof. repeat split. Qed.

Lemma bound_inside i n :
  (0 <= i <= Z.of_nat n)%Z -> bound i n = Z.to_nat i.
Proof.
  intros H. unfold bound.
  destruct (Z.ltb_spec i 0); lia.
Qed.

(** With [0 <= i1 <= i2 <= len(ary)], [np.split(ary, [i1, i2])] cuts
    [ary] into its first [i1] elements, the next [i2 - i1] and the
    rest. *)
Lemma split_two {A} (ary : list A) (i1 i2 : Z) :
  (0 <= i1 <= i2)%Z -> (i2 <= Z.of_nat (length ary))%Z ->
  exists a b c,
    split ary [i1; i2] = [a; b; c] /\
    a ++ b ++ c = ary /\
    length a = Z.to_nat i1 /\
    length b = Z.to_nat (i2 - i1) /\
    length c = Z.to_nat (Z.of_nat (length ary) - i2).
Proof.
  intros H1 H2.
  unfold split. cbn [app sections]. unfold slice.
  rewrite (bound_inside 0), (bound_inside i1), (bound_inside i2),
    (bound_inside (Z.of_nat (length ary))) by lia.
  change (Z.to_nat 0) with 0%nat. rewrite Nat.sub_0_r, Nat2Z.id.
  cbn [skipn].
  set (a1 := Z.to_nat i1). set (a2 := Z.to_nat i2).
  assert (Ha : (a1 <= a2 <= length ary)%nat) by lia.
  do 3 eexists. split; [reflexivity|].
  assert (E3 : firstn (length ary - a2) (skipn a2 ary) = skipn a2 ary).
  { apply firstn_all2. rewrite length_skipn. lia. }
  rewrite E3.
  assert (E2 : skipn a2 ary = skipn (a2 - a1) (skipn a1 ary)).
  { rewrite skipn_skipn. f_equal. lia. }
  split; [|split; [|split]].
  - rewrite E2, firstn_skipn, firstn_skipn. reflexivity.
  - rewrite length_firstn. lia.
  - rewrite length_firstn, length_skipn. lia.
  - rewrite length_skipn. lia.
Qed.

End NumpyFacts.

Module SplitFacts.
Import Py Pandas Tuning Float64Facts NumpyFacts.

Lemma range_indexed_labels cells :
  map fst (range_indexed cells) = seq 0 (length cells).
Proof.
  unfold range_indexed.
  assert (G : forall (l : list (list Q)) (s : list nat),
             length s = length l -> map fst (combine s l) = s).
  { induction l as [|x l IH]; intros [|y s] H; simpl in *;
      try reflexivity; try discriminate.
    f_equal. apply IH. lia. }
  apply G. apply length_seq.
Qed.

Lemma range_indexed_length cells :
  length (range_indexed cells) = length cells.
Proof.
  unfold range_indexed, row. rewrite length_combine, length_seq. lia.
Qed.

Lemma NoDup_app_disjoint {A} (l1 l2 : list A) x :
  NoDup (l1 ++ l2) -> In x l1 -> ~ In x l2.
Proof.
  induction l1 as [|a l1 IH]; simpl; intros N H1 H2; [contradiction|].
  inversion N as [|? ? Hn N']; subst.
  destruct H1 as [->|H1].
  - apply Hn. apply in_or_app. now right.
  - now apply IH.
Qed.

(** C10, amended.  For a frame of fewer than [2^53] rows, whatever
    order [sample] puts them in: the split succeeds; the three parts are
    pairwise disjoint and together are a permutation of the rows of
    [model_data]; and their sizes are [i1], [i2 - i1] and [n - i2], where
    [i1 = int(0.7 * n)] and [i2 = int(0.9 * n)] are computed on binary64
    floats and satisfy [0 <= i1 <= i2 <= n]. *)
Theorem three_way_split_partitions
    (sample : list row -> list row) (cells : list (list Q)) :
  (forall l, Permutation (sample l) l) ->
  (Z.of_nat (length cells) < 2 ^ 53)%Z ->
  let model_data := range_indexed cells in
  let n := Z.of_nat (length model_data) in
  exists train_data validation_data test_data i1 i2,
    train_validation_test sample model_data
      = Ok (train_data, validation_data, test_data) /\
    Float64.int_of_scaled (Float64.literal 7 10) n = Ok i1 /\
    Float64.int_of_scaled (Float64.literal 9 10) n = Ok i2 /\
    (0 <= i1 <= i2)%Z /\ (i2 <= n)%Z /\
    (forall r, In r train_data -> ~ In r validation_data) /\
    (forall r, In r train_data -> ~ In r test_data) /\
    (forall r, In r validation_data -> ~ In r test_data) /\
    Permutation (train_data ++ validation_data ++ test_data) model_data /\
    sizes (train_data, validation_data, test_data)
      = (i1, (i2 - i1)%Z, (n - i2)%Z).
Proof.
  intros Hperm Hn model_data n.
  assert (Ln : n = Z.of_nat (length cells)).
  { unfold n, model_data. now rewrite range_indexed_length. }
  destruct (split_points n) as [i1 [i2 [E1 [E2 [H1 H2]]]]]; [lia|].
  assert (Ls : length (sample model_data) = length model_data).
  { apply Permutation_length, Hperm. }
  destruct (split_two (sample model_data) i1 i2 H1) as [a [b [c [Es [Ec [La [Lb Lc]]]]]]].
  { rewrite Ls. exact H2. }
  exists a, b, c, i1, i2.
  unfold train_validation_test. fold n. rewrite E1, E2, Es.
  assert (P : Permutation (a ++ b ++ c) model_data).
  { rewrite Ec. apply Hperm. }
  assert (N : NoDup (a ++ b ++ c)).
  { apply (NoDup_map_inv fst).
    eapply Permutation_NoDup.
    - symmetry. apply Permutation_map. exact P.
    - unfold model_data. rewrite range_indexed_labels. apply seq_NoDup. }
  repeat split; try lia; try assumption.
  - intros r Ha Hb. apply (NoDup_app_disjoint a (b ++ c) r N Ha).
    apply in_or_app. now left.
  - intros r Ha Hc. apply (NoDup_app_disjoint a (b ++ c) r N Ha).
    apply in_or_app. now right.
  - intros r Hb Hc. apply NoDup_app_remove_l in N.
    now apply (NoDup_app_disjoint b c r N Hb).
  - unfold sizes. rewrite La, Lb, Lc, Ls.
    fold n. f_equal; [f_equal|]; lia.
Qed.

Lemma three_way_split_partitions_witness :
  (forall l : list row, Permutation ((fun l => l) l) l) /\
  (Z.of_nat (length (repeat (@nil Q) 10)) < 2 ^ 53)%Z /\
  exists train_data validation_data test_data i1 i2,
    train_validation_test (fun l => l) (range_indexed (repeat [] 10))
      = Ok (train_data, validation_data, test_data) /\
    Float64.int_of_scaled (Float64.literal 7 10)
      (Z.of_nat (length (range_indexed (repeat [] 10)))) = Ok i1 /\
    Float64.int_of_scaled (Float64.literal 9 10)
      (Z.of_nat (length (range_indexed (repeat [] 10)))) = Ok i2 /\
    (0 <= i1 <= i2)%Z /\
    (i2 <= Z.of_nat (length (range_indexed (repeat [] 10))))%Z /\
    (forall r, In r train_data -> ~ In r validation_data) /\
    (forall r, In r train_data -> ~ In r test_data) /\
    (forall r, In r validation_data -> ~ In r test_data) /\
    Permutation (train_data ++ validation_data ++ test_data)
      (range_indexed (repeat [] 10)) /\
    sizes (train_data, validation_data, test_data)
      = (i1, (i2 - i1)%Z,
         (Z.of_nat (length (range_indexed (repeat [] 10))) - i2)%Z).
Proof.
  assert (H1 : forall l : list row, Permutation ((fun l => l) l) l)
    by (intros l; apply Permutation_refl).
  assert (H2 : (Z.of_nat (length (repeat (@nil Q) 10)) < 2 ^ 53)%Z)
    by (vm_compute; reflexivity).
  split; [exact H1|]. split; [exact H2|].
  exact (three_way_split_partitions (fun l => l) (repeat [] 10) H1 H2).
Defined.

(** C10, as stated, fails on the sizes: with 90 rows, [0.7 * 90] is the
    float just below 63, so [train_data] has 62 rows, not
    [floor(0.7 * 90) = 63]. *)
Lemma three_way_split_sizes_not_exact :
  exists parts,
    train_validation_test (fun l => l) (range_indexed (repeat [] 90))
      = Ok parts /\
    sizes parts = (62, 19, 9)%Z /\
    exact_sizes 90 = (63, 18, 9)%Z /\
    sizes parts <> exact_sizes 90.
Proof.
  eexists. split; [vm_compute; reflexivity|].
  split; [reflexivity|]. split; [reflexivity|].
  vm_compute. discriminate.
Qed.

End SplitFacts.


(* ================================================================== *)
(** * More on the feature selection notebook *)

Module FeatureScoresFacts.
Import Py Pandas FeatureSelection FeatureScores PyFacts FeatureSelectionFacts.

(** *** The printing loop *)

Lemma print_scores_from_lines scores : forall index cols,
  fst (print_scores_from index cols scores) = combine (skipn index cols) scores.
Proof.
  induction scores as [|s scores IH]; intros index cols; simpl.
  - now rewrite combine_nil.
  - destruct (nth_error cols index) as [c|] eqn:E.
    + specialize (IH (S index) cols).
      destruct (print_scores_from (S index) cols scores) as [lines e].
      simpl in *. rewrite IH.
      clear IH. revert index E. induction cols as [|c0 cols IHc]; intros [|i] E;
        simpl in *; try discriminate.
      * now injection E as ->.
      * now apply IHc.
    + apply nth_error_None in E. rewrite skipn_all2 by exact E. reflexivity.
Qed.

Lemma print_scores_from_end scores : forall index cols,
  snd (print_scores_from index cols scores) = Finished <->
  (index + length scores <= length cols \/ scores = [])%nat.
Proof.
  induction scores as [|s scores IH]; intros index cols; simpl.
  - split; auto.
  - destruct (nth_error cols index) as [c|] eqn:E.
    + specialize (IH (S index) cols).
      destruct (print_scores_from (S index) cols scores) as [lines e].
      simpl in *. rewrite IH.
      assert (index < length cols)%nat by (apply nth_error_Some; congruence).
      split.
      * intros [H1| ->]; left; simpl in *; lia.
      * intros [H1|H1]; [|discriminate]. left. lia.
    + apply nth_error_None in E. simpl. split; [discriminate|].
      intros [H1|H1]; [lia|discriminate].
Qed.

(** X1. The loop prints one line per score, pairing the scores with the
    columns in order, and ends normally exactly when there are no more
    scores than columns; otherwise it raises [IndexError] after the line of
    the last column. *)
Theorem print_scores_lines_and_end (scores : list Q) (X_train : DataFrame) :
  fst (print_scores scores X_train) = combine (columns X_train) scores /\
  (snd (print_scores scores X_train) = Finished <->
   (length scores <= length (columns X_train))%nat) /\
  (snd (print_scores scores X_train) = IndexError <->
   (length (columns X_train) < length scores)%nat).
Proof.
  unfold print_scores.
  pose proof (print_scores_from_end scores 0 (columns X_train)) as E.
  simpl in E.
  assert (F : snd (print_scores_from 0 (columns X_train) scores) = Finished <->
              (length scores <= length (columns X_train))%nat).
  { rewrite E. split.
    - intros [H| ->]; simpl; lia.
    - auto. }
  split; [apply (print_scores_from_lines scores 0)|]. split; [exact F|].
  destruct (snd (print_scores_from 0 (columns X_train) scores)).
  - split; [discriminate|]. intros H. apply proj1 in F. specialize (F eq_refl). lia.
  - split; [|reflexivity]. intros _.
    destruct (Nat.le_gt_cases (length scores) (length (columns X_train)));
      [|assumption].
    apply F in H. discriminate.
Qed.


(** *** What [remove_features] builds *)

Lemma filter_map_fst {A B} (f : A -> bool) (g : A * B -> bool) (l : list (A * B)) :
  (forall x, In x l -> f (fst x) = g x) ->
  filter f (map fst l) = map fst (filter g l).
Proof.
  induction l as [|x l IH]; intros H; simpl; [reflexivity|].
  rewrite (H x (or_introl eq_refl)).
  rewrite IH by (intros y Hy; apply H; now right).
  destruct (g x); reflexivity.
Qed.

Lemma map_fst_combine_eq {A B} (l1 : list A) (l2 : list B) :
  length l2 = length l1 -> map fst (combine l1 l2) = l1.
Proof.
  revert l2. induction l1 as [|a l1 IH]; intros [|b l2] H;
    simpl in *; try reflexivity; try discriminate.
  f_equal. apply IH. now injection H.
Qed.

Lemma combine_map_l {A B C} (f : A -> C) (l1 : list A) (l2 : list B) :
  combine (map f l1) l2 = map (fun p => (f (fst p), snd p)) (combine l1 l2).
Proof.
  revert l2. induction l1 as [|a l1 IH]; intros [|b l2]; simpl;
    try reflexivity.
  now rewrite IH.
Qed.

(** With unique labels, a label is collected exactly when the score of
    its column is at most the threshold. *)
Lemma collected_iff_low (l : list (column * Q)) thr :
  NoDup (map (fun cs => col_label (fst cs)) l) ->
  forall cs, In cs l ->
    mem (col_label (fst cs))
      (map (fun cs => col_label (fst cs))
         (filter (fun cs => Qle_bool (snd cs) thr) l))
    = Qle_bool (snd cs) thr.
Proof.
  intros N cs Hin.
  destruct (Qle_bool (snd cs) thr) eqn:E.
  - apply mem_In. apply in_map_iff. exists cs. split; [reflexivity|].
    apply filter_In. auto.
  - destruct (mem _ _) eqn:M; [|reflexivity].
    apply mem_In in M. apply in_map_iff in M.
    destruct M as [cs' [Hl Hf]]. apply filter_In in Hf. destruct Hf as [Hin' E'].
    assert (cs' = cs); [|congruence].
    clear E E'. induction l as [|x l IH]; [contradiction|].
    simpl in N. inversion N as [|? ? Hn N']; subst.
    destruct Hin as [->|Hin], Hin' as [->|Hin']; try reflexivity.
    + exfalso. apply Hn. rewrite <- Hl. apply in_map_iff. eauto.
    + exfalso. apply Hn. rewrite Hl. apply in_map_iff. eauto.
    + now apply IH.
Qed.

Lemma features_to_remove_columns_of lst (df : DataFrame) thr :
  features_to_remove lst (columns df) thr =
  map (fun cs => col_label (fst cs))
    (filter (fun cs : column * Q => Qle_bool (snd cs) thr) (combine df lst)).
Proof.
  rewrite features_to_remove_filter. unfold columns.
  rewrite combine_map_l.
  induction (combine df lst) as [|x l IH]; simpl; [reflexivity|].
  destruct (Qle_bool (snd x) thr); simpl; now rewrite IH.
Qed.

Lemma existsb_low_filter (l : list (column * Q)) thr :
  existsb (fun cs => Qle_bool (snd cs) thr) l = false <->
  filter (fun cs => Qle_bool (snd cs) thr) l = [].
Proof.
  induction l as [|x l IH]; simpl; [tauto|].
  destruct (Qle_bool (snd x) thr); simpl; [split; discriminate|exact IH].
Qed.

(** X2. When [data] has unique labels and one score per column,
    [remove_features] returns [None]; if no score is at most the
    threshold it builds nothing, and otherwise it builds exactly one new
    frame, made of the columns of [data] whose score is above the
    threshold, in their order. *)
Theorem remove_features_builds_pruned_frame
    (lst : list Q) (data : ref) (thr : Q) (h : heap) (df : DataFrame) :
  deref h data = Some df ->
  NoDup (columns df) ->
  length lst = length df ->
  remove_features lst data thr h =
  (Ok tt,
   if existsb (fun score => Qle_bool score thr) lst
   then h ++ [columns_above lst df thr]
   else h).
Proof.
  intros Hd N L.
  pose proof (features_to_remove_columns_of lst df thr) as FT.
  assert (Ex : existsb (fun score => Qle_bool score thr) lst =
               existsb (fun cs : column * Q => Qle_bool (snd cs) thr)
                 (combine df lst)).
  { clear Hd N FT. revert lst L.
    induction df as [|c df IH]; intros [|s lst] L; simpl in *;
      try reflexivity; try discriminate.
    f_equal. apply IH. now injection L. }
  destruct (drop_features_to_remove lst df thr) as [df' Hdrop].
  assert (Hdf' : df' = columns_above lst df thr).
  { unfold drop in Hdrop.
    destruct (forallb _ _); [|discriminate]. injection Hdrop as <-.
    rewrite FT. unfold columns_above.
    rewrite <- (map_fst_combine_eq df lst L) at 1.
    apply filter_map_fst.
    intros cs Hin. unfold above. f_equal.
    apply collected_iff_low; [|exact Hin].
    assert (M : map (fun cs : column * Q => col_label (fst cs)) (combine df lst)
                = map col_label df).
    { rewrite <- (map_fst_combine_eq df lst L) at 2. now rewrite map_map. }
    now rewrite M. }
  unfold remove_features. rewrite Hd. cbv zeta.
  destruct (features_to_remove lst (columns df) thr) as [|l0 ls] eqn:T.
  - symmetry in FT. apply map_eq_nil in FT.
    apply existsb_low_filter in FT. now rewrite Ex, FT.
  - rewrite Hdrop. unfold alloc. simpl.
    assert (X : existsb (fun cs : column * Q => Qle_bool (snd cs) thr)
                  (combine df lst) = true).
    { destruct (existsb (fun cs : column * Q => Qle_bool (snd cs) thr)
                  (combine df lst)) eqn:Y; [reflexivity|].
      apply existsb_low_filter in Y. rewrite Y in FT. discriminate. }
    now rewrite Ex, X, Hdf'.
Qed.

Lemma remove_features_builds_pruned_frame_witness :
  deref [example_frame] 0%nat = Some example_frame /\
  NoDup (columns example_frame) /\
  length example_scores = length example_frame /\
  remove_features example_scores 0%nat threshold [example_frame] =
  (Ok tt, [example_frame; [Column "f1" [3; 4]%Q]]).
Proof.
  assert (N : NoDup (columns example_frame)).
  { repeat constructor; simpl; intuition discriminate. }
  split; [reflexivity|]. split; [exact N|]. split; [reflexivity|].
  exact (remove_features_builds_pruned_frame
           example_scores 0%nat threshold [example_frame] example_frame
           eq_refl N eq_refl).
Defined.

(** X3. Raising the threshold only adds to the labels collected. *)
Theorem features_to_remove_monotone
    (lst : list Q) (cols : list label) (thr thr' : Q) :
  (thr <= thr')%Q ->
  incl (features_to_remove lst cols thr) (features_to_remove lst cols thr').
Proof.
  intros H l. rewrite !features_to_remove_filter, !in_map_iff.
  intros [p [E Hin]]. exists p. split; [exact E|].
  apply filter_In in Hin. destruct Hin as [Hin Hle].
  apply filter_In. split; [exact Hin|].
  apply Qle_bool_iff. apply Qle_bool_iff in Hle.
  now apply Qle_trans with thr.
Qed.

Lemma features_to_remove_monotone_witness :
  (1 # 100 <= 1)%Q /\
  incl (features_to_remove example_scores (columns example_frame) (1 # 100))
       (features_to_remove example_scores (columns example_frame) 1).
Proof.
  assert (H : (1 # 100 <= 1)%Q) by (apply Qle_bool_iff; reflexivity).
  split; [exact H|].
  exact (features_to_remove_monotone
           example_scores (columns example_frame) (1 # 100) 1 H).
Defined.


(** *** The ranking *)

Section Stable.
Context {A : Type}.
Variable key : A -> Q.
Variable reverse : bool.
Variable q : Q.

Lemma same_placed x y :
  Qeq_bool (key x) q = true -> Qeq_bool (key y) q = true ->
  place key reverse x y = true.
Proof.
  unfold place. intros Hx Hy.
  apply Qeq_bool_iff in Hx. apply Qeq_bool_iff in Hy.
  destruct reverse; apply Qle_bool_iff; rewrite Hx, Hy; apply Qle_refl.
Qed.

Lemma filter_insert x l :
  filter (fun x => Qeq_bool (key x) q) (insert key reverse x l)
  = filter (fun x => Qeq_bool (key x) q) (x :: l).
Proof.
  induction l as [|y l IH]; [reflexivity|].
  cbn [insert]. destruct (place key reverse x y) eqn:P; [reflexivity|].
  cbn [filter] in *. cbv beta in *. rewrite IH.
  destruct (Qeq_bool (key x) q) eqn:Sx, (Qeq_bool (key y) q) eqn:Sy;
    try reflexivity.
  rewrite (same_placed x y Sx Sy) in P. discriminate.
Qed.

Lemma filter_sorted l :
  filter (fun x => Qeq_bool (key x) q) (sorted key reverse l)
  = filter (fun x => Qeq_bool (key x) q) l.
Proof.
  induction l as [|x l IH]; [reflexivity|].
  cbn [sorted fold_right]. fold (sorted key reverse l).
  rewrite filter_insert. cbn [filter]. now rewrite IH.
Qed.
End Stable.


Lemma map_fst_combine_firstn {A B} (l1 : list A) (l2 : list B) :
  map fst (combine l1 l2) = firstn (length l2) l1.
Proof.
  revert l2. induction l1 as [|a l1 IH]; intros [|b l2]; simpl;
    try reflexivity.
  now rewrite IH.
Qed.

(** X5. Scores and columns are paired by [zip]: when their numbers differ,
    the surplus is ignored without an error.  The ranking has as many rows
    as the shorter of the two, its features are the first [len(scores)]
    columns, and [remove_features] collects labels among these only. *)
Theorem zip_ignores_surplus (scores : list Q) (data : DataFrame) (thr : Q) :
  let out := rows (show_ranked_feature_importance_list scores data) in
  length out = Nat.min (length (columns data)) (length scores) /\
  Permutation (map fst out) (firstn (length scores) (columns data)) /\
  incl (features_to_remove scores (columns data) thr)
       (firstn (length scores) (columns data)).
Proof.
  cbn zeta. unfold show_ranked_feature_importance_list. cbn [rows].
  pose proof (sorted_perm (fun t : label * Q => snd t) true
                (combine (columns data) scores)) as P.
  split; [|split].
  - rewrite (Permutation_length P). apply length_combine.
  - rewrite <- map_fst_combine_firstn. now apply Permutation_map.
  - rewrite features_to_remove_filter, <- map_fst_combine_firstn.
    intros l Hl. apply in_map_iff in Hl. destruct Hl as [p [E Hp]].
    apply filter_In in Hp. apply in_map_iff. exists p. tauto.
Qed.

(** Filtering the rows of a ranking and of its input gives the same
    rows, up to order. *)
Lemma filter_rows_perm (keep : label * Q -> bool) (rs rs' : list (label * Q))
    (P : Permutation rs rs') :
  Permutation (filter keep rs) (filter keep rs').
Proof.
  induction P as [|r rs rs' P IH|r1 r2 rs|rs rs' rs'' P1 IH1 P2 IH2];
    cbn [filter].
  - apply perm_nil.
  - destruct (keep r); [apply perm_skip|]; exact IH.
  - destruct (keep r2), (keep r1); try apply Permutation_refl.
    apply perm_swap.
  - exact (perm_trans IH1 IH2).
Qed.

Lemma sorted_cut (thr : Q) (l : list (label * Q)) :
  StronglySorted (fun a b => (snd b <= snd a)%Q) l ->
  l = filter (fun r => above thr (snd r)) l
      ++ filter (fun r => Qle_bool (snd r) thr) l.
Proof.
  induction 1 as [|x l S IH F]; [reflexivity|].
  cbn [filter]. unfold above at 1.
  destruct (Qle_bool (snd x) thr) eqn:E; cbn [negb].
  - assert (Low : forall y, In y l -> Qle_bool (snd y) thr = true).
    { intros y Hy. rewrite Forall_forall in F. specialize (F y Hy).
      apply Qle_bool_iff. apply Qle_bool_iff in E.
      now apply Qle_trans with (snd x). }
    assert (F1 : filter (fun r => above thr (snd r)) l = []).
    { clear IH S F. induction l as [|y l IHl]; [reflexivity|].
      cbn [filter]. unfold above at 1.
      rewrite (Low y (or_introl eq_refl)). cbn [negb].
      apply IHl. intros z Hz. apply Low. now right. }
    assert (F2 : filter (fun r => Qle_bool (snd r) thr) l = l).
    { clear IH S F F1. induction l as [|y l IHl]; [reflexivity|].
      cbn [filter]. rewrite (Low y (or_introl eq_refl)).
      f_equal. apply IHl. intros z Hz. apply Low. now right. }
    now rewrite F1, F2.
  - cbn [app]. f_equal. exact IH.
Qed.


End FeatureScoresFacts.

(* ================================================================== *)
(** * More on the three-way split *)

Module SplitSizesFacts.
Import Py Pandas Tuning Float64 Float64Facts NumpyFacts SplitFacts.


(** Where the two split points fall. *)
Lemma split_points_detail (n : Z) :
  (0 <= n < 2 ^ 53)%Z ->
  exists i1 i2,
    int_of_scaled (literal 7 10) n = Ok i1 /\
    int_of_scaled (literal 9 10) n = Ok i2 /\
    (0 <= i1 <= i2)%Z /\ (i2 <= n)%Z /\
    (n < 2 -> i1 = 0)%Z /\ (2 <= n -> 1 <= i1)%Z /\
    (n < 4 -> i2 = i1)%Z /\ (4 <= n -> i1 < i2)%Z /\
    (1 <= n -> i2 < n)%Z /\
    (n < 2 ^ 52 ->
     7 * n / 10 - 1 <= i1 <= 7 * n / 10 + 1 /\
     9 * n / 10 <= i2 <= 9 * n / 10 + 1)%Z.
Proof.
  intros Hn.
  assert (P52 : (2 ^ 52 = 4503599627370496)%Z) by reflexivity.
  assert (P53 : (2 ^ 53 = 9007199254740992)%Z) by reflexivity.
  destruct (Z_lt_ge_dec n 11) as [Small|Big].
  - assert (C : In n (map Z.of_nat (seq 0 11))).
    { rewrite <- (Z2Nat.id n) by lia. apply in_map, in_seq. lia. }
    clear Hn Small P52 P53. simpl in C.
    repeat (destruct C as [<-|C]); [..|destruct C];
      (do 2 eexists;
       split; [vm_compute; reflexivity|];
       split; [vm_compute; reflexivity|];
       repeat split; intros; try lia; vm_compute; discriminate).
  - rewrite literal_0_7, literal_0_9.
    destruct (int_of_scaled_bounds 6305039478318694 n) as [i1 [E1 [L1 U1]]];
      [reflexivity|lia|].
    destruct (int_of_scaled_bounds 8106479329266893 n) as [i2 [E2 [L2 U2]]];
      [reflexivity|lia|].
    exists i1, i2. split; [exact E1|]. split; [exact E2|].
    rewrite P53 in *.
    set (k := ((6305039478318694 * n + 9007199254740991) / 9007199254740992)%Z).
    pose proof (Z.div_mod (6305039478318694 * n + 9007199254740991)
                  9007199254740992 ltac:(lia)) as DM.
    pose proof (Z.mod_pos_bound (6305039478318694 * n + 9007199254740991)
                  9007199254740992 ltac:(lia)) as MB.
    fold k in DM.
    assert (I1 : (i1 <= k)%Z) by (apply U1; lia).
    assert (I2 : (k + 1 <= i2)%Z) by (apply L2; lia).
    assert (I3 : (1 <= i1)%Z) by (apply L1; lia).
    assert (I4 : (i2 <= n - 1)%Z) by (apply U2; lia).
    repeat split; try lia.
    + pose proof (Z.div_mod (7 * n) 10 ltac:(lia)) as D7.
      pose proof (Z.mod_pos_bound (7 * n) 10 ltac:(lia)) as M7.
      apply L1. lia.
    + pose proof (Z.div_mod (7 * n) 10 ltac:(lia)) as D7.
      pose proof (Z.mod_pos_bound (7 * n) 10 ltac:(lia)) as M7.
      apply U1. lia.
    + pose proof (Z.div_mod (9 * n) 10 ltac:(lia)) as D9.
      pose proof (Z.mod_pos_bound (9 * n) 10 ltac:(lia)) as M9.
      apply L2. lia.
    + pose proof (Z.div_mod (9 * n) 10 ltac:(lia)) as D9.
      pose proof (Z.mod_pos_bound (9 * n) 10 ltac:(lia)) as M9.
      apply U2. lia.
Qed.


Section Parts.
Variable sample : list row -> list row.
Variable model_data : list row.
Hypothesis sample_length : length (sample model_data) = length model_data.
Hypothesis small : (Z.of_nat (length model_data) < 2 ^ 53)%Z.

(** The split succeeds and cuts the shuffled frame at the two
    points. *)
Lemma three_way_split_parts :
  exists a b c i1 i2,
    train_validation_test sample model_data = Ok (a, b, c) /\
    int_of_scaled (literal 7 10) (Z.of_nat (length model_data)) = Ok i1 /\
    int_of_scaled (literal 9 10) (Z.of_nat (length model_data)) = Ok i2 /\
    a ++ b ++ c = sample model_data /\
    length a = Z.to_nat i1 /\
    length b = Z.to_nat (i2 - i1) /\
    length c = Z.to_nat (Z.of_nat (length model_data) - i2) /\
    (0 <= i1 <= i2)%Z /\ (i2 <= Z.of_nat (length model_data))%Z.
Proof.
  destruct (split_points_detail (Z.of_nat (length model_data)))
    as [i1 [i2 [E1 [E2 [H1 [H2 _]]]]]]; [lia|].
  destruct (split_two (sample model_data) i1 i2 H1)
    as [a [b [c [Es [Ec [La [Lb Lc]]]]]]].
  { rewrite sample_length. exact H2. }
  exists a, b, c, i1, i2.
  unfold train_validation_test. rewrite E1, E2, Es.
  rewrite sample_length in Lc. repeat split; try assumption; lia.
Qed.
End Parts.

(** X7. For a frame of fewer than [2^53] rows that [sample] returns
    with all its rows, the three parts are consecutive pieces of the
    shuffled frame, in its order: [train_data] is its beginning,
    [validation_data] what follows, [test_data] its end, and nothing is
    left out or repeated. *)
Theorem three_way_split_consecutive
    (sample : list row -> list row) (model_data : list row) :
  length (sample model_data) = length model_data ->
  (Z.of_nat (length model_data) < 2 ^ 53)%Z ->
  exists train_data validation_data test_data,
    train_validation_test sample model_data
      = Ok (train_data, validation_data, test_data) /\
    train_data ++ validation_data ++ test_data = sample model_data /\
    train_data = firstn (length train_data) (sample model_data) /\
    validation_data
      = firstn (length validation_data)
          (skipn (length train_data) (sample model_data)) /\
    test_data
      = skipn (length train_data + length validation_data)
          (sample model_data).
Proof.
  intros Hs Hn.
  destruct (three_way_split_parts sample model_data Hs Hn)
    as [a [b [c [i1 [i2 [E [_ [_ [Ec _]]]]]]]]].
  exists a, b, c. split; [exact E|]. split; [exact Ec|].
  rewrite <- Ec. repeat split.
  - rewrite firstn_app, Nat.sub_diag, firstn_all. simpl.
    now rewrite app_nil_r.
  - rewrite skipn_app, Nat.sub_diag, skipn_all. simpl.
    rewrite firstn_app, Nat.sub_diag, firstn_all. simpl.
    now rewrite app_nil_r.
  - rewrite app_assoc, <- length_app, skipn_app, Nat.sub_diag, skipn_all.
    reflexivity.
Qed.

Lemma three_way_split_consecutive_witness :
  exists train_data validation_data test_data,
    train_validation_test (fun l => l) (range_indexed (repeat [] 10))
      = Ok (train_data, validation_data, test_data) /\
    train_data ++ validation_data ++ test_data
      = range_indexed (repeat [] 10) /\
    train_data = firstn (length train_data) (range_indexed (repeat [] 10)) /\
    validation_data
      = firstn (length validation_data)
          (skipn (length train_data) (range_indexed (repeat [] 10))) /\
    test_data
      = skipn (length train_data + length validation_data)
          (range_indexed (repeat [] 10)).
Proof.
  apply (three_way_split_consecutive (fun l => l)
           (range_indexed (repeat [] 10))).
  - reflexivity.
  - vm_compute. reflexivity.
Defined.

(** X8. Small frames give empty parts: [train_data] is empty exactly
    when there are fewer than 2 rows, [validation_data] exactly when there
    are fewer than 4, and [test_data] only when there is no row at all. *)
Theorem three_way_split_empty_parts
    (sample : list row -> list row) (model_data : list row) :
  length (sample model_data) = length model_data ->
  (Z.of_nat (length model_data) < 2 ^ 53)%Z ->
  exists train_data validation_data test_data,
    train_validation_test sample model_data
      = Ok (train_data, validation_data, test_data) /\
    (train_data = [] <-> (length model_data < 2)%nat) /\
    (validation_data = [] <-> (length model_data < 4)%nat) /\
    (test_data = [] <-> length model_data = 0%nat).
Proof.
  intros Hs Hn.
  destruct (split_points_detail (Z.of_nat (length model_data)))
    as [i1 [i2 [E1 [E2 [H1 [H2 [A1 [A2 [A3 [A4 [A5 _]]]]]]]]]]]; [lia|].
  destruct (three_way_split_parts sample model_data Hs Hn)
    as [a [b [c [j1 [j2 [E [F1 [F2 [_ [La [Lb [Lc _]]]]]]]]]]]].
  rewrite E1 in F1. rewrite E2 in F2.
  injection F1 as <-. injection F2 as <-.
  exists a, b, c. split; [exact E|].
  rewrite <- !length_zero_iff_nil.
  repeat split; intros H; lia.
Qed.

Lemma three_way_split_empty_parts_witness :
  exists train_data validation_data test_data,
    train_validation_test (fun l => l) (range_indexed (repeat [] 3))
      = Ok (train_data, validation_data, test_data) /\
    (train_data = [] <-> (length (range_indexed (repeat [] 3)) < 2)%nat) /\
    (validation_data = []
     <-> (length (range_indexed (repeat [] 3)) < 4)%nat) /\
    (test_data = [] <-> length (range_indexed (repeat [] 3)) = 0%nat).
Proof.
  apply (three_way_split_empty_parts (fun l => l)
           (range_indexed (repeat [] 3))).
  - reflexivity.
  - vm_compute. reflexivity.
Defined.

(** [exact_sizes], by integer division. *)
Lemma exact_sizes_div n :
  exact_sizes n
  = ((7 * n / 10)%Z, (9 * n / 10 - 7 * n / 10)%Z, (n - 9 * n / 10)%Z).
Proof.
  unfold exact_sizes, Qfloor, Qmult, inject_Z. simpl Qnum. simpl Qden.
  reflexivity.
Qed.

(** X9. For fewer than [2^52] rows, the floating-point split points are
    at most one row away from the exact 70% and 90% marks: the size of
    [train_data] differs from [floor(7n/10)] by at most one, and
    [test_data] has [n - floor(9n/10)] rows or one less. *)
Theorem three_way_split_sizes_within_one
    (sample : list row -> list row) (model_data : list row) :
  length (sample model_data) = length model_data ->
  (Z.of_nat (length model_data) < 2 ^ 52)%Z ->
  exists parts,
    train_validation_test sample model_data = Ok parts /\
    let '(a, b, c) := sizes parts in
    let '(a', b', c') := exact_sizes (Z.of_nat (length model_data)) in
    (a' - 1 <= a <= a' + 1)%Z /\
    (b' - 1 <= b <= b' + 2)%Z /\
    (c' - 1 <= c <= c')%Z.
Proof.
  intros Hs Hn.
  assert (Hn' : (Z.of_nat (length model_data) < 2 ^ 53)%Z).
  { change (2 ^ 53)%Z with (2 * 2 ^ 52)%Z. lia. }
  destruct (split_points_detail (Z.of_nat (length model_data)))
    as [i1 [i2 [E1 [E2 [H1 [H2 [_ [_ [_ [_ [_ B]]]]]]]]]]]; [lia|].
  specialize (B Hn).
  destruct (three_way_split_parts sample model_data Hs Hn')
    as [a [b [c [j1 [j2 [E [F1 [F2 [_ [La [Lb [Lc _]]]]]]]]]]]].
  rewrite E1 in F1. rewrite E2 in F2.
  injection F1 as <-. injection F2 as <-.
  exists (a, b, c). split; [exact E|].
  rewrite exact_sizes_div. unfold sizes. rewrite La, Lb, Lc.
  lia.
Qed.

Lemma three_way_split_sizes_within_one_witness :
  exists parts,
    train_validation_test (fun l => l) (range_indexed (repeat [] 90))
      = Ok parts /\
    let '(a, b, c) := sizes parts in
    let '(a', b', c') :=
      exact_sizes (Z.of_nat (length (range_indexed (repeat [] 90)))) in
    (a' - 1 <= a <= a' + 1)%Z /\
    (b' - 1 <= b <= b' + 2)%Z /\
    (c' - 1 <= c <= c')%Z.
Proof.
  apply (three_way_split_sizes_within_one (fun l => l)
           (range_indexed (repeat [] 90))).
  - reflexivity.
  - vm_compute. reflexivity.
Defined.

End SplitSizesFacts.

(* ================================================================== *)
(** * The files written and the second job's name *)

Module TuningDataFacts.
Import Py Pandas TuningData FeatureSelectionFacts.

Lemma filter_label_absent l (df : DataFrame) :
  ~ In l (columns df) ->
  filter (fun c => String.eqb (col_label c) l) df = [].
Proof.
  induction df as [|c df IH]; simpl; intros H; [reflexivity|].
  destruct (String.eqb_spec (col_label c) l) as [E|E].
  - exfalso. apply H. now left.
  - apply IH. intros K. apply H. now right.
Qed.

Lemma filter_label_unique l (df : DataFrame) :
  NoDup (columns df) -> In l (columns df) ->
  exists y, filter (fun c => String.eqb (col_label c) l) df = [y] /\
            In y df /\ col_label y = l.
Proof.
  induction df as [|c df IH]; simpl; intros N H; [contradiction|].
  inversion N as [|? ? Hn N']; subst.
  destruct (String.eqb_spec (col_label c) l) as [E|E].
  - exists c. rewrite filter_label_absent by now rewrite <- E.
    auto.
  - destruct H as [H|H]; [contradiction|].
    destruct (IH N' H) as [y [F [Hin L]]].
    exists y. auto.
Qed.

Lemma getitem_KeyError l df :
  getitem l df = Raise KeyError <-> ~ In l (columns df).
Proof.
  unfold getitem. split.
  - intros H Hin.
    destruct (filter _ df) as [|c cs] eqn:F; [|discriminate].
    apply in_map_iff in Hin. destruct Hin as [c [E Hc]].
    assert (K : In c (filter (fun c => String.eqb (col_label c) l) df)).
    { apply filter_In. split; [exact Hc|]. now apply String.eqb_eq. }
    rewrite F in K. exact K.
  - intros H. now rewrite filter_label_absent.
Qed.

Lemma columns_filter (p : label -> bool) (df : DataFrame) :
  columns (filter (fun c => p (col_label c)) df) = filter p (columns df).
Proof.
  induction df as [|c df IH]; simpl; [reflexivity|].
  destruct (p (col_label c)); simpl; now rewrite IH.
Qed.

Lemma length_filter_remove2 (a b : label) (ls : list label) :
  NoDup ls -> In a ls -> In b ls -> a <> b ->
  (length (filter (fun l => negb (mem l [a; b])) ls) + 2 = length ls)%nat.
Proof.
  intros N Ha Hb Hab.
  set (p := fun l => negb (mem l [a; b])).
  assert (Pa : p a = false).
  { unfold p. simpl. now rewrite String.eqb_refl. }
  assert (Pb : p b = false).
  { unfold p. simpl. now rewrite String.eqb_refl, orb_true_r. }
  assert (P : Permutation (a :: b :: filter p ls) ls).
  { apply NoDup_Permutation; [|exact N|].
    - constructor; [|constructor].
      + intros [K|K]; [congruence|].
        apply filter_In in K. destruct K as [_ K]. congruence.
      + intros K. apply filter_In in K. destruct K as [_ K]. congruence.
      + now apply NoDup_filter.
    - intros x. split.
      + intros [<-|[<-|K]]; try assumption.
        now apply filter_In in K.
      + intros K. destruct (p x) eqn:Px.
        * right. right. apply filter_In. now split.
        * unfold p in Px. simpl in Px. apply negb_false_iff in Px.
          rewrite orb_false_r in Px. apply orb_prop in Px.
          destruct Px as [Px|Px]; apply String.eqb_eq in Px; subst; simpl;
            auto. }
  apply Permutation_length in P. simpl in P. lia.
Qed.

(** X10. When the labels of [df] are unique and [y_yes] and [y_no] are
    among them, the frame written has the column [y_yes] of [df] first,
    then the other columns of [df] in their order, without [y_no] and
    [y_yes]: one column less than [df], and no label twice. *)
Theorem label_first_layout (df : DataFrame) :
  NoDup (columns df) ->
  In "y_yes" (columns df) -> In "y_no" (columns df) ->
  exists y out,
    label_first df = Ok out /\
    out = y :: filter (fun c => negb (mem (col_label c) ["y_no"; "y_yes"])) df /\
    In y df /\ col_label y = "y_yes" /\
    columns out
      = "y_yes" :: filter (fun l => negb (mem l ["y_no"; "y_yes"])) (columns df) /\
    NoDup (columns out) /\
    (length out + 1 = length df)%nat.
Proof.
  intros N Hy Hn.
  destruct (filter_label_unique "y_yes" df N Hy) as [y [F [Hin L]]].
  assert (D : drop ["y_no"; "y_yes"] df
              = Ok (filter (fun c => negb (mem (col_label c) ["y_no"; "y_yes"]))
                      df)).
  { unfold drop. cbn [forallb].
    apply mem_In in Hy. apply mem_In in Hn. now rewrite Hy, Hn. }
  assert (C : columns (y :: filter (fun c => negb (mem (col_label c) ["y_no"; "y_yes"])) df)
              = "y_yes" :: filter (fun l => negb (mem l ["y_no"; "y_yes"])) (columns df)).
  { cbn [columns map]. rewrite L. f_equal.
    apply (columns_filter (fun l => negb (mem l ["y_no"; "y_yes"]))). }
  exists y. eexists.
  split.
  { unfold label_first, getitem. rewrite F, D.
    unfold concat_columns. cbn [concat app]. rewrite app_nil_r. reflexivity. }
  split; [reflexivity|]. split; [exact Hin|]. split; [exact L|].
  split; [exact C|]. split.
  - rewrite C. constructor.
    + intros K. apply filter_In in K. destruct K as [_ K].
      vm_compute in K. discriminate.
    + now apply NoDup_filter.
  - pose proof (length_filter_remove2 "y_no" "y_yes" (columns df) N Hn Hy
                  ltac:(discriminate)) as K.
    rewrite <- (columns_filter (fun l => negb (mem l ["y_no"; "y_yes"]))) in K.
    unfold columns in K. rewrite !length_map in K.
    cbn [length]. lia.
Qed.

Lemma label_first_layout_witness :
  exists y out,
    label_first example_model_data = Ok out /\
    out = y :: filter (fun c => negb (mem (col_label c) ["y_no"; "y_yes"]))
                 example_model_data /\
    In y example_model_data /\ col_label y = "y_yes" /\
    columns out
      = "y_yes" :: filter (fun l => negb (mem l ["y_no"; "y_yes"]))
                     (columns example_model_data) /\
    NoDup (columns out) /\
    (length out + 1 = length example_model_data)%nat.
Proof.
  apply (label_first_layout example_model_data).
  - repeat constructor; simpl; intuition discriminate.
  - simpl. auto.
  - simpl. auto.
Defined.

(** X11. Writing a file raises [KeyError] exactly when [df] has no
    column [y_yes] or no column [y_no], and raises nothing else. *)
Theorem label_first_KeyError (df : DataFrame) :
  (label_first df = Raise KeyError
   <-> ~ In "y_yes" (columns df) \/ ~ In "y_no" (columns df)) /\
  (forall e, label_first df = Raise e -> e = KeyError).
Proof.
  assert (M : forall l, mem l (columns df) = false <-> ~ In l (columns df)).
  { intros l. rewrite <- mem_In. destruct (mem l (columns df)); split;
      congruence. }
  unfold label_first, drop. cbn [forallb]. rewrite andb_true_r.
  pose proof (getitem_KeyError "y_yes" df) as G.
  destruct (getitem "y_yes" df) as [y|e] eqn:Gy.
  - assert (Hy : In "y_yes" (columns df)).
    { destruct (in_dec string_dec "y_yes" (columns df)) as [H|H];
        [exact H|]. apply G in H. discriminate. }
    pose proof Hy as Hy'. apply mem_In in Hy'. rewrite Hy', andb_true_r.
    destruct (mem "y_no" (columns df)) eqn:Hn.
    + split; [|discriminate]. split; [discriminate|].
      apply mem_In in Hn. intros [K|K]; contradiction.
    + split; [|now intros e [= <-]]. split; [|reflexivity].
      intros _. right. now apply M.
  - unfold getitem in Gy.
    destruct (filter _ df) eqn:F; [|discriminate]. injection Gy as <-.
    split; [|now intros e [= <-]]. split; [|reflexivity].
    intros _. left. apply G. reflexivity.
Qed.

(** X12. The name given to the second tuning job differs from the name
    of the first, is six characters longer, and different first names give
    different second names. *)
Theorem job_name_fresh (a b : string) :
  job_name a <> a /\
  (job_name a = job_name b -> a = b) /\
  String.length (job_name a) = (String.length a + 6)%nat.
Proof.
  assert (L : forall s t, String.length (String.append s t)
                          = (String.length s + String.length t)%nat).
  { induction s as [|c s IH]; simpl; intros t; [reflexivity|].
    now rewrite IH. }
  unfold job_name. split; [|split].
  - intros E. apply (f_equal String.length) in E. rewrite L in E.
    simpl in E. lia.
  - revert b. induction a as [|c a IH]; intros [|d b]; simpl; intros E.
    + reflexivity.
    + exfalso. apply (f_equal String.length) in E. simpl in E.
      rewrite L in E. simpl in E. lia.
    + exfalso. apply (f_equal String.length) in E. simpl in E.
      rewrite L in E. simpl in E. lia.
    + injection E as -> E. f_equal. now apply IH.
  - now rewrite L.
Qed.

End TuningDataFacts.

(* ================================================================== *)
(** * Run-level properties of each notebook *)

Module RunsFacts.
Import Py Notebook NotebookFacts Runs.

(** Every run of an explored notebook passes the checks, its statuses
    read as "Completed" or "Other". *)
Lemma runs_explored ok nb :
  explore ok nb (steps_bound nb) [] [] = true ->
  forall v, scan ok [] (shape (trace v nb)) = true.
Proof.
  intros H v. unfold shape. rewrite <- (trace_map normal normal_completed).
  apply (explore_sound _ _ _ _ _ H).
  - intros k. simpl. unfold normal. destruct (is_completed _); auto.
  - split; intros n Hn; simpl in Hn; lia.
Qed.

Lemma checked_at ok tr pre e post :
  scan ok [] (shape tr) = true -> tr = pre ++ e :: post ->
  ok (shape (rev pre)) (map_event normal e) (shape post) = true.
Proof.
  intros H E.
  assert (E' : shape tr = shape pre ++ map_event normal e :: shape post).
  { unfold shape. rewrite E, map_app. reflexivity. }
  pose proof (scan_sound _ _ _ H _ _ _ E') as K.
  unfold shape in *. now rewrite app_nil_r, <- map_rev in K.
Qed.

Lemma occurs_In x l : occurs x l = true -> In x l.
Proof. unfold occurs. destruct (in_dec event_eq_dec x l); easy. Qed.

Lemma occurs_one x y : occurs x [y] = true -> x = y.
Proof. intros H. apply occurs_In in H. destruct H as [H|[]]. now symmetry. Qed.

Lemma normal_Completed s : normal s = "Completed" -> s = "Completed".
Proof.
  unfold normal. destruct (is_completed s) eqn:E; [|discriminate].
  intros _. now apply String.eqb_eq.
Qed.

(** An event that carries no status is in the shape of a list only if it
    is in the list. *)
Lemma shape_plain x y : plain x -> map_event normal y = x -> y = x.
Proof.
  destruct y as [| | | | | |j [s|]| | |]; simpl; intros P E; subst;
    try reflexivity.
  destruct P.
Qed.

Lemma In_shape x l : plain x -> In x (shape l) -> In x l.
Proof.
  intros P H. unfold shape in H.
  apply in_map_iff in H. destruct H as [y [E H]].
  now rewrite <- (shape_plain x y P E).
Qed.

Lemma occurs_shape x l : plain x -> occurs x (shape l) = true -> In x l.
Proof. intros P H. now apply In_shape, occurs_In. Qed.

Lemma occurs_shape_rev x l :
  plain x -> occurs x (shape (rev l)) = true -> In x l.
Proof. intros P H. now apply in_rev, occurs_shape. Qed.

Lemma last_status_shape j l :
  last_status j (shape l) = option_map normal (last_status j l).
Proof.
  unfold shape. induction l as [|e l IH]; simpl; [reflexivity|].
  destruct e as [| | | | | |j' [s|]| | |]; simpl; try exact IH.
  destruct (Nat.eqb j j'); [reflexivity|exact IH].
Qed.

Lemma last_submitted_shape l : last_submitted (shape l) = last_submitted l.
Proof.
  unfold shape. induction l as [|e l IH]; simpl; [reflexivity|].
  destruct e as [| | | | | |j' [s|]| | |]; simpl; try exact IH; reflexivity.
Qed.

Lemma polled_shape e : polled (map_event normal e) = polled e.
Proof. destruct e as [| | | | | |j' [s|]| | |]; reflexivity. Qed.

Lemma polled_polls e j : polls j e = true -> polled e = Some j.
Proof.
  destruct e; simpl; try discriminate; intros H;
    apply Nat.eqb_eq in H; now subst.
Qed.

Lemma status_completed_shape j l :
  status_completed (last_status j (shape l)) = true ->
  last_status j l = Some "Completed".
Proof.
  rewrite last_status_shape. destruct (last_status j l) as [s|]; simpl;
    [|discriminate].
  rewrite normal_completed. intros H. apply String.eqb_eq in H. now subst.
Qed.

Lemma tuning_explored :
  explore ok_tuning Tuning.notebook (steps_bound Tuning.notebook) [] [] = true.
Proof. vm_compute. reflexivity. Qed.

Lemma scheduling_explored :
  explore ok_scheduling Scheduling.notebook
    (steps_bound Scheduling.notebook) [] [] = true.
Proof. vm_compute. reflexivity. Qed.

Lemma feature_selection_explored :
  explore ok_local FeatureSelection.notebook
    (steps_bound FeatureSelection.notebook) [] [] = true.
Proof. vm_compute. reflexivity. Qed.

Lemma tuning_checked v pre e post :
  trace v Tuning.notebook = pre ++ e :: post ->
  ok_jobs (shape (rev pre)) (map_event normal e) = true /\
  ok_results (shape (rev pre)) (map_event normal e) = true /\
  ok_endpoint (shape (rev pre)) (map_event normal e) (shape post) = true.
Proof.
  intros E.
  pose proof (checked_at _ _ _ _ _
                (runs_explored _ _ tuning_explored v) E) as K.
  unfold ok_tuning in K.
  repeat (apply andb_prop in K; destruct K as [K ?]). auto.
Qed.

Lemma scheduling_checked v pre e post :
  trace v Scheduling.notebook = pre ++ e :: post ->
  ok_started (shape (rev pre)) (map_event normal e) = true /\
  ok_latest (shape (rev pre)) (map_event normal e) = true /\
  ok_stale (shape (rev pre)) (map_event normal e) (shape post) = true.
Proof.
  intros E.
  pose proof (checked_at _ _ _ _ _
                (runs_explored _ _ scheduling_explored v) E) as K.
  unfold ok_scheduling in K.
  repeat (apply andb_prop in K; destruct K as [K ?]). auto.
Qed.

(** X13. In every run of the tuning notebook, whatever the service
    answers, the only jobs started are [tuner_log]'s, as job 0, and
    [tuner_linear]'s, as job 1 and under its own [job_name]; the second is
    started only after the first was. *)
Theorem tuning_linear_after_log (v : vendor) :
  linear_after_log (trace v Tuning.notebook).
Proof.
  intros pre r j us post E.
  destruct (tuning_checked v _ _ _ E) as [K _].
  simpl in K. apply orb_prop in K. destruct K as [K|K].
  - left. now apply occurs_one.
  - right. apply andb_prop in K. destruct K as [K1 K2]. split.
    + now apply occurs_one.
    + now apply occurs_shape_rev.
Qed.

(** X14. In every run of the tuning notebook, analytics are read and
    the figure is drawn only when both tuning jobs were started and the
    latest status received for each of them is "Completed"; the figure
    comes after both reads returned and shows the results of both jobs. *)
Theorem tuning_results_after_both_completed (v : vendor) :
  results_after_both_completed (trace v Tuning.notebook).
Proof.
  intros pre e post E R.
  destruct (tuning_checked v _ _ _ E) as [_ [K _]].
  unfold ok_results in K.
  assert (R' : reads_results (map_event normal e) = true)
    by (destruct e; try discriminate; reflexivity).
  rewrite R' in K.
  repeat (apply andb_prop in K; destruct K as [K ?]).
  repeat split.
  - now apply occurs_shape_rev.
  - now apply occurs_shape_rev.
  - now apply status_completed_shape.
  - now apply status_completed_shape.
  - subst e. simpl in H. apply andb_prop in H. destruct H as [H _].
    apply andb_prop in H. destruct H as [H _].
    apply occurs_one in H. now injection H.
  - subst e. simpl in H. apply andb_prop in H. destruct H as [H _].
    apply andb_prop in H. destruct H as [_ H].
    now apply occurs_shape_rev.
  - subst e. simpl in H. apply andb_prop in H. destruct H as [_ H].
    now apply occurs_shape_rev.
Qed.

(** X15. In every run of the tuning notebook, [delete_endpoint] is
    called only after [tuner_linear.deploy] returned, and whenever the
    deployment returns, the deletion of its endpoint is requested later
    in the run. *)
Theorem tuning_endpoint_cleaned_up (v : vendor) :
  endpoint_cleaned_up (trace v Tuning.notebook).
Proof.
  split.
  - intros pre obj us ok post E ->.
    destruct (tuning_checked v _ _ _ E) as [_ [_ K]].
    simpl in K. apply andb_prop in K. destruct K as [K _].
    apply andb_prop in K. destruct K as [K1 K2]. split.
    + apply occurs_one in K1. now injection K1.
    + now apply occurs_shape_rev.
  - intros pre post E.
    destruct (tuning_checked v _ _ _ E) as [_ [_ K]].
    simpl in K. apply orb_prop in K. destruct K as [K|K].
    + exists true. now apply occurs_shape.
    + exists false. now apply occurs_shape.
Qed.

(** X16. In every run of the scheduling notebook, the training
    pipeline is started only after its [upsert] returned, and the
    inference pipeline only after the test features were uploaded. *)
Theorem scheduling_started_after_prerequisites (v : vendor) :
  started_after_prerequisites (trace v Scheduling.notebook).
Proof.
  intros pre r j us post E.
  destruct (scheduling_checked v _ _ _ E) as [K _].
  simpl in K. apply orb_prop in K.
  destruct K as [K|K]; apply andb_prop in K; destruct K as [K1 K2];
    apply String.eqb_eq in K1; [left|right]; (split; [exact K1|]);
    now apply occurs_shape_rev.
Qed.

(** When the start of the inference pipeline is refused, the notebook
    goes on to describe the execution of the training pipeline. *)
Example scheduling_run_start_refused :
  skipn 48 (trace start_refused Scheduling.notebook) =
  [ EService "pipeline.upsert" ["sklearn-scheduled-inference"; "role"] true;
    ESubmitRejected "sklearn-scheduled-inference";
    ERaise VendorError; EDescribe 0 (Some "Succeeded");
    EShell "aws s3 ls s3://$bucket/$prefix/output/" ].
Proof. vm_compute. reflexivity. Qed.

(** X17. In every run of the scheduling notebook, each [wait] and
    [describe] is on the execution started latest; so when the start of
    the inference pipeline is refused, every later [wait] or [describe] is
    on the execution of the training pipeline, which was started. *)
Theorem scheduling_polls_latest_execution (v : vendor) :
  polls_latest_execution (trace v Scheduling.notebook) /\
  stale_execution_described (trace v Scheduling.notebook).
Proof.
  split.
  - intros pre e post j E P.
    destruct (scheduling_checked v _ _ _ E) as [_ [K _]].
    unfold ok_latest in K.
    rewrite polled_shape, (polled_polls _ _ P), last_submitted_shape in K.
    destruct (last_submitted (rev pre)) as [j'|]; [|discriminate].
    apply Nat.eqb_eq in K. now subst.
  - intros pre post E e j Hin P.
    destruct (scheduling_checked v _ _ _ E) as [_ [_ K]].
    unfold ok_stale in K. cbn [map_event] in K.
    assert (O : occurs (ESubmitRejected "sklearn-scheduled-inference")
                  [ESubmitRejected "sklearn-scheduled-inference"] = true)
      by (vm_compute; reflexivity).
    rewrite O in K. rewrite forallb_forall in K.
    specialize (K (map_event normal e) (in_map _ _ _ Hin)).
    rewrite polled_shape, (polled_polls _ _ P) in K.
    apply andb_prop in K. destruct K as [K1 K2].
    apply Nat.eqb_eq in K1. split; [exact K1|].
    now apply occurs_shape_rev.
Qed.


End RunsFacts.
